(** * AQI analysis agent: the location URL formatter, the metrics fetcher,
      the prompt builder and the orchestration function

    Shallow embedding of [ai_aqi_analysis_agent_gradio.py].

    - Python [str] values are modelled as [string], the UTF-8 encoding of the
      text.  [str.lower] follows the Unicode case mapping of the interpreter:
      it is a parameter, with the facts about it that the proofs use.
    - Python [float] values are binary64 numbers ([spec_float]); their text
      is the shortest decimal that reads back as the same number.
    - Code that can raise returns an [outcome]; an exception is an instance
      of [Exception] with its message, which is all the [except] clauses of
      the program look at.
    - The two remote services and the model validation are parameters too:
      a client is a function from the arguments of a call to its outcome. *)

From Stdlib Require Import ZArith Ascii String SpecFloat DecimalString.
From stdpp Require Import gmap strings list fin_maps.

Set Warnings "-register-all".
Local Open Scope Z_scope.

(** ** Python strings *)

Module PyStr.

(** [c] is one of [A]..[Z]. *)
Definition is_upper (c : ascii) : bool :=
  ((65 <=? N_of_ascii c) && (N_of_ascii c <=? 90))%N.

Definition ascii_lower_char (c : ascii) : ascii :=
  if is_upper c then ascii_of_N (N_of_ascii c + 32) else c.

(** [s.lower()] for an ASCII string [s]: the letters [A]..[Z] are lowered
    and nothing else changes. *)
Fixpoint ascii_lower (s : string) : string :=
  match s with
  | EmptyString => EmptyString
  | String c s' => String (ascii_lower_char c) (ascii_lower s')
  end.

(** One of [A]..[Z] occurs in [s]. *)
Fixpoint has_upper (s : string) : bool :=
  match s with
  | EmptyString => false
  | String c s' => is_upper c || has_upper s'
  end.

(** Every byte of [s] is an ASCII character. *)
Fixpoint ascii_only (s : string) : bool :=
  match s with
  | EmptyString => true
  | String c s' => (N_of_ascii c <? 128)%N && ascii_only s'
  end.

(** [s.replace(old, new)] for one-character [old] and [new]. *)
Fixpoint replace (old new : ascii) (s : string) : string :=
  match s with
  | EmptyString => EmptyString
  | String c s' =>
      String (if Ascii.eqb c old then new else c) (replace old new s')
  end.

(** [c in s] for a one-character [c]. *)
Fixpoint has_char (c : ascii) (s : string) : bool :=
  match s with
  | EmptyString => false
  | String c' s' => Ascii.eqb c' c || has_char c s'
  end.

(** [s.count(c)] for a one-character [c]. *)
Fixpoint count_char (c : ascii) (s : string) : nat :=
  match s with
  | EmptyString => 0%nat
  | String c' s' => ((if Ascii.eqb c' c then 1 else 0) + count_char c s')%nat
  end.

(** [bool(s)]: a string is truthy when it is not empty. *)
Definition truthy (s : string) : bool :=
  match s with EmptyString => false | String _ _ => true end.

(** [s.split(sep)] for a one-character separator. *)
Fixpoint split (sep : ascii) (s : string) : list string :=
  match s with
  | EmptyString => [EmptyString]
  | String c s' =>
      if Ascii.eqb c sep then EmptyString :: split sep s'
      else match split sep s' with
           | [] => [String c EmptyString]
           | w :: ws => String c w :: ws
           end
  end.

(** [s.removeprefix(p)] when [s.startswith(p)], [None] otherwise. *)
Fixpoint strip_prefix (p s : string) : option string :=
  match p, s with
  | EmptyString, _ => Some s
  | String a p', String b s' =>
      if Ascii.eqb a b then strip_prefix p' s' else None
  | String _ _, EmptyString => None
  end.

End PyStr.

Import PyStr.

(** ** [str.lower] *)

(** [s.lower()] is the interpreter's: it follows the Unicode case mapping,
    which the development does not spell out.  It is a parameter, with the
    facts about it that the proofs use; each of them holds of [str.lower] on
    every text.
    - On an ASCII string it lowers [A]..[Z] and leaves the rest.
    - Lowering twice is lowering once.
    - It commutes with the replacement of every space by a hyphen.
    - It goes through a ['/']: the text before it and the text after it are
      lowered each on its own.
    - Its result has none of [A]..[Z].
    - It neither adds nor removes a ['/'] or a space.
    - Only the empty string is lowered to the empty string. *)
Class CaseMapping := {
  lower : string -> string;
  lower_ascii : forall s, ascii_only s = true -> lower s = ascii_lower s;
  lower_lower : forall s, lower (lower s) = lower s;
  lower_replace : forall s,
    lower (replace " " "-" s) = replace " " "-" (lower s);
  lower_slash : forall a b,
    lower (a +:+ String "/" b) = lower a +:+ String "/" (lower b);
  lower_no_upper : forall s, has_upper (lower s) = false;
  lower_count_slash : forall s, count_char "/" (lower s) = count_char "/" s;
  lower_count_space : forall s, count_char " " (lower s) = count_char " " s;
  lower_nonempty : forall s, lower s = EmptyString -> s = EmptyString
}.

(** ** The location URL formatter *)

Definition dashboard_prefix : string := "https://www.aqi.in/dashboard/".

Section Formatter.
Context {L : CaseMapping}.

(** The expression [x.lower().replace(' ', '-')] that [_format_url] applies
    to the country, the state and the city. *)
Definition clean (x : string) : string := replace " " "-" (lower x).

(** The guard [not state or state.lower() == 'none']. *)
Definition state_omitted (state : string) : bool :=
  negb (truthy state) || String.eqb (lower state) "none".

(** [AQIAnalyzer._format_url] *)
Definition _format_url (country state city : string) : string :=
  let country_clean := clean country in
  let city_clean := clean city in
  if state_omitted state then
    "https://www.aqi.in/dashboard/" +:+ country_clean +:+ "/" +:+ city_clean
  else
    let state_clean := clean state in
    "https://www.aqi.in/dashboard/" +:+ country_clean +:+ "/" +:+ state_clean
      +:+ "/" +:+ city_clean.

End Formatter.

(** The path segments of a dashboard URL: what follows the fixed prefix,
    cut at every ['/']. *)
Definition path_segments (url : string) : option (list string) :=
  split "/" <$> strip_prefix dashboard_prefix url.

(** No space and none of [A]..[Z] occurs in [s]. *)
Fixpoint is_clean (s : string) : bool :=
  match s with
  | EmptyString => true
  | String c s' => negb (is_upper c) && negb (Ascii.eqb c " ") && is_clean s'
  end.

(** ** Python numbers and their text *)

Module PyNum.

(** A metric value: the fallback mapping holds the [int] 0, a validated
    response holds [float]s (binary64, as [spec_float]). *)
Inductive pynum :=
| PInt (z : Z)
| PFloat (x : spec_float).

(** [float(z)], rounding to nearest with ties to even. *)
Definition float_of_Z (z : Z) : spec_float :=
  binary_normalize 53 1024 z 0 false.

(** [str(z)] for a Python [int]. *)
Definition str_int (z : Z) : string := NilZero.string_of_int (Z.to_int z).

(** The decimals [d * 10^k] that lie within [lo, hi] (bounds included
    when [incl]), all three read as multiples of [2^s] with [s <= 0]:
    the least and the greatest such [d], and the integer nearest to
    [x / 10^k]. *)
Definition decimal_window (s k lo hi x : Z) (incl : bool) : Z * Z * Z :=
  let scale := if 0 <=? k then 1 else 10 ^ (- k) in
  let step := if 0 <=? k then 10 ^ k * 2 ^ (- s) else 2 ^ (- s) in
  let L := lo * scale in
  let H := hi * scale in
  let X := x * scale in
  let dmin := if incl then (L + step - 1) / step else L / step + 1 in
  let dmax := if incl then H / step else (H + step - 1) / step - 1 in
  let d0 := X / step in
  let r := X - d0 * step in
  let mid := if 2 * r <? step then d0
             else if step <? 2 * r then d0 + 1
             else if Z.even d0 then d0 else d0 + 1 in
  (dmin, dmax, mid).

Fixpoint shortest_from (fuel : nat) (s k lo hi x : Z) (incl : bool) : Z * Z :=
  let '(dmin, dmax, mid) := decimal_window s k lo hi x incl in
  if dmin <=? dmax then (Z.max dmin (Z.min dmax mid), k)
  else match fuel with
       | O => (0, 0)
       | S fuel' => shortest_from fuel' s (k - 1) lo hi x incl
       end.

(** The shortest decimal [d * 10^k] that reads back, rounding to nearest
    with ties to even, as the binary64 number [m * 2^e]; among the
    shortest ones, the nearest to it. *)
Definition shortest_decimal (m : positive) (e : Z) : Z * Z :=
  let s := Z.min (e - 2) 0 in
  let x := Z.pos m * 2 ^ (e - s) in
  let up := 2 ^ (e - 1 - s) in
  let down := if (Z.pos m =? 2 ^ 52) && (-1074 <? e)
              then 2 ^ (e - 2 - s) else up in
  let k0 := (Z.log2 (x + up) + s + 1) * 30103 / 100000 + 1 in
  shortest_from 40 s k0 (x - down) (x + up) x (Z.even (Z.pos m)).

Fixpoint zeros (n : nat) : string :=
  match n with O => EmptyString | S n' => String "0" (zeros n') end.

(** The layout of [float.__repr__] for the digits [d] and the exponent
    [k] of their last place: exponent notation when the decimal point
    falls more than 16 places to the right of the first digit or 4 or
    more to its left, positional notation otherwise. *)
Definition repr_digits (d k : Z) : string :=
  let ds := str_int d in
  let n := Z.of_nat (String.length ds) in
  let decpt := n + k in
  if (decpt <=? -4) || (16 <? decpt) then
    let ex := decpt - 1 in
    let mant := match ds with
                | String c (String c' rest) => String c ("." +:+ String c' rest)
                | _ => ds
                end in
    let exs := str_int (Z.abs ex) in
    mant +:+ "e" +:+ (if ex <? 0 then "-" else "+")
         +:+ (if Z.abs ex <? 10 then "0" +:+ exs else exs)
  else if decpt <=? 0 then "0." +:+ zeros (Z.to_nat (- decpt)) +:+ ds
  else if decpt <? n then
    substring 0 (Z.to_nat decpt) ds +:+ "."
      +:+ substring (Z.to_nat decpt) (Z.to_nat (n - decpt)) ds
  else ds +:+ zeros (Z.to_nat (decpt - n)) +:+ ".0".

(** [str(x)] for a Python [float] (the same text as [repr(x)]). *)
Definition str_float (x : spec_float) : string :=
  match x with
  | S754_nan => "nan"
  | S754_infinity s => if s then "-inf" else "inf"
  | S754_zero s => if s then "-0.0" else "0.0"
  | S754_finite s m e =>
      let '(d, k) := shortest_decimal m e in
      (if s then "-" else "") +:+ repr_digits d k
  end.

(** [str(v)], which is what an f-string field [{v}] renders. *)
Definition str_num (v : pynum) : string :=
  match v with
  | PInt z => str_int z
  | PFloat x => str_float x
  end.

End PyNum.

Import PyNum.

(** ** [json.dumps] *)

Module Json.

(** What the display dictionary holds: a number or a string. *)
Inductive jval :=
| JNum (v : pynum)
| JStr (s : string).

(** The code points of a UTF-8 encoded text.  A byte that does not start
    a complete sequence stands for itself. *)
Fixpoint code_points (s : string) : list N :=
  match s with
  | EmptyString => []
  | String c0 s0 =>
      let b0 := N_of_ascii c0 in
      let one := b0 :: code_points s0 in
      if (b0 <? 192)%N then one
      else match s0 with
           | EmptyString => one
           | String c1 s1 =>
               let b1 := (N_of_ascii c1 mod 64)%N in
               if (b0 <? 224)%N then
                 ((b0 mod 32) * 64 + b1)%N :: code_points s1
               else match s1 with
                    | EmptyString => one
                    | String c2 s2 =>
                        let b2 := (N_of_ascii c2 mod 64)%N in
                        if (b0 <? 240)%N then
                          ((b0 mod 16) * 4096 + b1 * 64 + b2)%N
                            :: code_points s2
                        else match s2 with
                             | EmptyString => one
                             | String c3 s3 =>
                                 let b3 := (N_of_ascii c3 mod 64)%N in
                                 ((b0 mod 8) * 262144 + b1 * 4096
                                  + b2 * 64 + b3)%N :: code_points s3
                             end
                    end
           end
  end.

Definition hex_digit (n : N) : ascii :=
  if (n <? 10)%N then ascii_of_N (48 + n) else ascii_of_N (87 + n).

(** ['\\u{0:04x}'.format(n)] *)
Definition u_escape (n : N) : string :=
  "\u" +:+ String (hex_digit (n / 4096 mod 16))
             (String (hex_digit (n / 256 mod 16))
                (String (hex_digit (n / 16 mod 16))
                   (String (hex_digit (n mod 16)) EmptyString))).

Definition quote : string := String "034" EmptyString.

(** One character of a JSON string under [ensure_ascii=True]: the
    printable ASCII characters other than the quote and the backslash
    stand for themselves, everything else is escaped. *)
Definition escape_code_point (n : N) : string :=
  if (n =? 34)%N then "\" +:+ quote
  else if (n =? 92)%N then "\\"
  else if (n =? 10)%N then "\n"
  else if (n =? 13)%N then "\r"
  else if (n =? 9)%N then "\t"
  else if (n =? 8)%N then "\b"
  else if (n =? 12)%N then "\f"
  else if ((32 <=? n) && (n <=? 126))%N then String (ascii_of_N n) EmptyString
  else if (n <? 65536)%N then u_escape n
  else
    let v := (n - 65536)%N in
    u_escape (55296 + (v / 1024) mod 1024) +:+ u_escape (56320 + v mod 1024).

Definition dumps_str (s : string) : string :=
  quote +:+ String.concat "" (escape_code_point <$> code_points s) +:+ quote.

(** A [float] is written as [float.__repr__] writes it, but for the three
    values that JSON has no number for. *)
Definition dumps_num (v : pynum) : string :=
  match v with
  | PFloat S754_nan => "NaN"
  | PFloat (S754_infinity s) => if s then "-Infinity" else "Infinity"
  | _ => str_num v
  end.

Definition dumps_val (v : jval) : string :=
  match v with
  | JNum n => dumps_num n
  | JStr s => dumps_str s
  end.

Definition newline : string := String "010" EmptyString.

(** [json.dumps(obj, indent=2)] for a dictionary [obj] of numbers and
    strings, given as its items in insertion order. *)
Definition dumps_indent2 (obj : list (string * jval)) : string :=
  match obj with
  | [] => "{}"
  | _ =>
      "{" +:+ newline
        +:+ String.concat ("," +:+ newline)
              ((fun kv => "  " +:+ dumps_str kv.1 +:+ ": " +:+ dumps_val kv.2)
                 <$> obj)
        +:+ newline +:+ "}"
  end.

End Json.

Import Json.

(** ** Exceptions and results *)

(** An exception object: an instance of a subclass of [Exception], with the
    text [str(e)] gives for it. *)
Record exn := Exn { exn_class : string; exn_msg : string }.

(** What running a piece of Python ends in. *)
Inductive outcome (A : Type) :=
| Ret (a : A)
| Raise (e : exn).
Arguments Ret {A} a.
Arguments Raise {A} e.

#[export] Instance outcome_ret : MRet outcome := fun A a => Ret a.
#[export] Instance outcome_bind : MBind outcome := fun A B f m =>
  match m with
  | Ret a => f a
  | Raise e => Raise e
  end.
#[export] Instance outcome_fmap : FMap outcome := fun A B f m =>
  match m with
  | Ret a => Ret (f a)
  | Raise e => Raise e
  end.

(** A JSON-like Python value, as an HTTP client hands it over. *)
Inductive pyval :=
| VNone
| VBool (b : bool)
| VInt (z : Z)
| VFloat (x : spec_float)
| VStr (s : string)
| VList (l : list pyval)
| VDict (d : gmap string pyval).

(** [KeyError(key)]: the message is [repr(key)]; the keys looked up by the
    program are literals without quotes or escapes in them. *)
Definition KeyError (key : string) : exn :=
  Exn "KeyError" ("'" +:+ key +:+ "'").

(** [TypeError(message)] *)
Definition TypeError (message : string) : exn := Exn "TypeError" message.

(** The dictionary that a subscription [v[key]] with a string key needs [v]
    to be; on any other value the subscription raises [TypeError]. *)
Definition as_dict (v : pyval) : outcome (gmap string pyval) :=
  match v with
  | VDict d => Ret d
  | VNone => Raise (TypeError "'NoneType' object is not subscriptable")
  | VBool _ => Raise (TypeError "'bool' object is not subscriptable")
  | VInt _ => Raise (TypeError "'int' object is not subscriptable")
  | VFloat _ => Raise (TypeError "'float' object is not subscriptable")
  | VStr _ => Raise (TypeError "string indices must be integers, not 'str'")
  | VList _ => Raise (TypeError "list indices must be integers or slices, not str")
  end.

(** [d[key]] on a dictionary. *)
Definition dict_getitem (d : gmap string pyval) (key : string) : outcome pyval :=
  match d !! key with
  | Some x => Ret x
  | None => Raise (KeyError key)
  end.

(** [v is None] *)
Definition is_None (v : pyval) : bool :=
  match v with VNone => true | _ => false end.

(** [aqi_data[key]] on a metrics mapping. *)
Definition metric (aqi_data : gmap string pynum) (key : string) : outcome pynum :=
  match aqi_data !! key with
  | Some v => Ret v
  | None => Raise (KeyError key)
  end.

(** ** The data model *)

(** [class AQIResponse(BaseModel)] *)
Module AQIResponse.
Record t := make {
  success : bool;
  data : gmap string spec_float;
  status : string;
  expiresAt : string
}.
End AQIResponse.

(** [class ExtractSchema(BaseModel)]: the fields, all of type [float], and
    their descriptions. *)
Definition ExtractSchema : list (string * string) :=
  [ ("aqi", "Air Quality Index");
    ("temperature", "Temperature in degrees Celsius");
    ("humidity", "Humidity percentage");
    ("wind_speed", "Wind speed in kilometers per hour");
    ("pm25", "Particulate Matter 2.5 micrometers");
    ("pm10", "Particulate Matter 10 micrometers");
    ("co", "Carbon Monoxide level") ].

(** [@dataclass class UserInput] *)
Module UserInput.
Record t := make {
  city : string;
  state : string;
  country : string;
  medical_conditions : option string;
  planned_activity : string
}.
End UserInput.

(** The seven metric names. *)
Definition metric_keys : gset string :=
  {[ "aqi"; "temperature"; "humidity"; "wind_speed"; "pm25"; "pm10"; "co" ]}.

(** ** The services the program calls *)

(** [v] is a Python [float]. *)
Definition as_float (v : pyval) : option spec_float :=
  match v with VFloat x => Some x | _ => None end.

(** The model validation that building an [AQIResponse] from the keys of
    the response runs.  It belongs to the validation library; the program
    relies on it for the three facts below, and the development holds for
    every validation that has them.
    - a response whose four fields have exactly the declared types is
      accepted as it is, whatever other fields it carries;
    - an accepted response keeps the reported Boolean [success];
    - an accepted response keeps the key set of the reported [data]. *)
Class Validation := {
  validate : gmap string pyval -> outcome AQIResponse.t;
  validate_typed : forall r b d s x,
    r !! "success" = Some (VBool b) ->
    r !! "data" = Some (VDict d) ->
    r !! "status" = Some (VStr s) ->
    r !! "expiresAt" = Some (VStr x) ->
    map_Forall (fun _ v => is_Some (as_float v)) d ->
    validate r = Ret (AQIResponse.make b (omap as_float d) s x);
  validate_success : forall r a b,
    validate r = Ret a ->
    r !! "success" = Some (VBool b) ->
    AQIResponse.success a = b;
  validate_data : forall r a d,
    validate r = Ret a ->
    r !! "data" = Some (VDict d) ->
    dom (AQIResponse.data a) = dom d
}.

(** The arguments of [FirecrawlApp.extract] besides the URLs. *)
Record ExtractParams := {
  prompt : string;
  schema : list (string * string)
}.

(** The extraction client: [extract] answers with a value or raises. *)
Record FirecrawlApp := {
  extract : list string -> ExtractParams -> outcome pyval
}.

(** A chat message and the answer of the generation service, reduced to the
    text of each choice's message. *)
Record Message := { role : string; content : string }.
Record ChatCompletion := { choices : list string }.

(** The generation client: [chat.completions.create]. *)
Record Groq := {
  chat_completions_create : list Message -> string -> outcome ChatCompletion
}.

(** What the process finds around it: the environment variables and the
    constructors of the two clients. *)
Record Platform := {
  getenv : string -> option string;
  FirecrawlApp_new : option string -> outcome FirecrawlApp;
  Groq_new : option string -> outcome Groq
}.

(** ** [class AQIAnalyzer] *)

Record AQIAnalyzer := { firecrawl : FirecrawlApp }.

(** [AQIAnalyzer.__init__] *)
Definition AQIAnalyzer_init (P : Platform) : outcome AQIAnalyzer :=
  fc ← FirecrawlApp_new P (getenv P "FIRE_CRAWL_API_KEY");
  mret {| firecrawl := fc |}.

Definition extract_prompt : string :=
  "Extract the current real-time AQI, temperature, humidity, wind speed, PM2.5, PM10, and CO levels from the page. Also extract the timestamp of the data.".

(** The mapping returned when anything fails: every metric the [int] 0. *)
Definition zero_metrics : gmap string pynum :=
  <["aqi" := PInt 0]> (<["temperature" := PInt 0]> (<["humidity" := PInt 0]>
  (<["wind_speed" := PInt 0]> (<["pm25" := PInt 0]> (<["pm10" := PInt 0]>
  (<["co" := PInt 0]> ∅)))))).

(** [response['data']['wind_speed'] = 0.0], done in place on the response:
    the validation that follows sees the new value. *)
Definition set_wind_speed (r d : gmap string pyval) : gmap string pyval :=
  <["data" := VDict (<["wind_speed" := VFloat (S754_zero false)]> d)]> r.

(** The call [self.firecrawl.extract(urls=[f"{url}/*"], params={...})]. *)
Definition extract_call (self : AQIAnalyzer) (url : string) : outcome pyval :=
  extract (firecrawl self) [url +:+ "/*"]
    {| prompt := extract_prompt; schema := ExtractSchema |}.

Section Fetcher.
Context {L : CaseMapping} {V : Validation}.

(** The [try] block of [fetch_aqi_data]: [Ret] when the block reaches its
    [return], [Raise] when an exception leaves it.  The two [print] calls write
    to the standard output and are left out. *)
Definition fetch_try (self : AQIAnalyzer) (city state country : string)
  : outcome (gmap string pynum * string) :=
  let url := _format_url country state city in
  let info_msg := "Accessing URL: " +:+ url in
  response ← extract_call self url;
  r ← as_dict response;
  data ← dict_getitem r "data";
  d ← as_dict data;
  wind_speed ← dict_getitem d "wind_speed";
  let r := if is_None wind_speed then set_wind_speed r d else r in
  aqi_response ← validate r;
  if negb (AQIResponse.success aqi_response) then
    Raise (Exn "ValueError"
             ("Failed to fetch AQI data: " +:+ AQIResponse.status aqi_response))
  else
    mret (PFloat <$> AQIResponse.data aqi_response, info_msg).

(** [AQIAnalyzer.fetch_aqi_data] *)
Definition fetch_aqi_data (self : AQIAnalyzer) (city state country : string)
  : gmap string pynum * string :=
  match fetch_try self city state country with
  | Ret result => result
  | Raise e =>
      let error_msg := "Error fetching AQI data: " +:+ exn_msg e in
      (zero_metrics, error_msg)
  end.

End Fetcher.

(** ** [class HealthRecommendationAgent] *)

Record HealthRecommendationAgent := { client : Groq }.

(** [HealthRecommendationAgent.__init__] *)
Definition HealthRecommendationAgent_init (P : Platform)
  : outcome HealthRecommendationAgent :=
  c ← Groq_new P (getenv P "GROQ_API_KEY");
  mret {| client := c |}.

(** [x or 'None'] for an optional string [x]. *)
Definition or_None (x : option string) : string :=
  match x with
  | Some s => if truthy s then s else "None"
  | None => "None"
  end.

(** [HealthRecommendationAgent._create_prompt]: the f-string, line by line.
    The seven subscriptions are evaluated from left to right, and the first
    missing key raises. *)
Definition _create_prompt (aqi_data : gmap string pynum) (user_input : UserInput.t)
  : outcome string :=
  aqi ← metric aqi_data "aqi";
  pm25 ← metric aqi_data "pm25";
  pm10 ← metric aqi_data "pm10";
  co ← metric aqi_data "co";
  temperature ← metric aqi_data "temperature";
  humidity ← metric aqi_data "humidity";
  wind_speed ← metric aqi_data "wind_speed";
  mret (String.concat newline
    [ "";
      "        Based on the following air quality conditions in "
        +:+ UserInput.city user_input +:+ ", "
        +:+ UserInput.state user_input +:+ ", "
        +:+ UserInput.country user_input +:+ ":";
      "        - Overall AQI: " +:+ str_num aqi;
      "        - PM2.5 Level: " +:+ str_num pm25 +:+ " µg/m³";
      "        - PM10 Level: " +:+ str_num pm10 +:+ " µg/m³";
      "        - CO Level: " +:+ str_num co +:+ " ppb";
      "        ";
      "        Weather conditions:";
      "        - Temperature: " +:+ str_num temperature +:+ "°C";
      "        - Humidity: " +:+ str_num humidity +:+ "%";
      "        - Wind Speed: " +:+ str_num wind_speed +:+ " km/h";
      "        ";
      "        User's Context:";
      "        - Medical Conditions: "
        +:+ or_None (UserInput.medical_conditions user_input);
      "        - Planned Activity: " +:+ UserInput.planned_activity user_input;
      "        **Comprehensive Health Recommendations:**";
      "        1. **Impact of Current Air Quality on Health:**";
      "        2. **Necessary Safety Precautions for Planned Activity:**";
      "        3. **Advisability of Planned Activity:**";
      "        4. **Best Time to Conduct the Activity:**";
      "        " ]).

(** [HealthRecommendationAgent.get_recommendations] *)
Definition get_recommendations (self : HealthRecommendationAgent)
    (aqi_data : gmap string pynum) (user_input : UserInput.t) : outcome string :=
  prompt ← _create_prompt aqi_data user_input;
  chat_completion ← chat_completions_create (client self)
                      [ {| role := "user"; content := prompt |} ]
                      "llama-3.3-70b-versatile";
  match choices chat_completion with
  | first :: _ => mret first
  | [] => Raise (Exn "IndexError" "list index out of range")
  end.

(** ** [analyze_conditions] *)

(** The dictionary that [analyze_conditions] hands to [json.dumps], its
    items in the order they are written. *)
Definition display_fields (aqi_data : gmap string pynum)
  : outcome (list (string * jval)) :=
  aqi ← metric aqi_data "aqi";
  pm25 ← metric aqi_data "pm25";
  pm10 ← metric aqi_data "pm10";
  co ← metric aqi_data "co";
  temperature ← metric aqi_data "temperature";
  humidity ← metric aqi_data "humidity";
  wind_speed ← metric aqi_data "wind_speed";
  mret [ ("Air Quality Index (AQI)", JNum aqi);
         ("PM2.5", JStr (str_num pm25 +:+ " µg/m³"));
         ("PM10", JStr (str_num pm10 +:+ " µg/m³"));
         ("Carbon Monoxide (CO)", JStr (str_num co +:+ " ppb"));
         ("Temperature", JStr (str_num temperature +:+ "°C"));
         ("Humidity", JStr (str_num humidity +:+ "%"));
         ("Wind Speed", JStr (str_num wind_speed +:+ " km/h")) ].

Definition warning_msg : string :=
  String.concat newline
    [ "";
      "        ⚠️ Note: The data shown may not match real-time values on the website. ";
      "        This could be due to:";
      "        - Cached data in Firecrawl";
      "        - Rate limiting";
      "        - Website updates not being captured";
      "        ";
      "        Consider refreshing or checking the website directly for real-time values.";
      "        " ].

Section Orchestration.
Context {L : CaseMapping} {V : Validation}.

(** The [try] block of [analyze_conditions]. *)
Definition analyze_try (P : Platform)
    (city state country medical_conditions planned_activity : string)
  : outcome (string * string * string * string) :=
  aqi_analyzer ← AQIAnalyzer_init P;
  health_agent ← HealthRecommendationAgent_init P;
  let user_input :=
    UserInput.make city state country (Some medical_conditions) planned_activity in
  let '(aqi_data, info_msg) :=
    fetch_aqi_data aqi_analyzer (UserInput.city user_input)
      (UserInput.state user_input) (UserInput.country user_input) in
  aqi_json ← dumps_indent2 <$> display_fields aqi_data;
  recommendations ← get_recommendations health_agent aqi_data user_input;
  mret (aqi_json, recommendations, info_msg, warning_msg).

(** [analyze_conditions] *)
Definition analyze_conditions (P : Platform)
    (city state country medical_conditions planned_activity : string)
  : string * string * string * string :=
  match analyze_try P city state country medical_conditions planned_activity with
  | Ret result => result
  | Raise e =>
      let error_msg := "Error occurred: " +:+ exn_msg e in
      (EmptyString, "Analysis failed", error_msg, EmptyString)
  end.

End Orchestration.

(** ** Concrete services, for running the program on examples *)

Definition validation_error : exn :=
  Exn "ValidationError" "validation error for AQIResponse".

(** A validation that accepts the responses whose fields have exactly the
    declared types, and no other. *)
Definition exact_validate (r : gmap string pyval) : outcome AQIResponse.t :=
  match r !! "success", r !! "data", r !! "status", r !! "expiresAt" with
  | Some (VBool b), Some (VDict d), Some (VStr s), Some (VStr x) =>
      if decide (map_Forall (fun _ v => is_Some (as_float v)) d)
      then Ret (AQIResponse.make b (omap as_float d) s x)
      else Raise validation_error
  | _, _, _, _ => Raise validation_error
  end.

(** Two failures of the network, as the client libraries report them. *)
Definition connection_error : exn :=
  Exn "ConnectionError" "Connection refused".
Definition quota_error : exn :=
  Exn "RateLimitError" "Rate limit reached".

(** An extraction client that answers every call with [v], and one that
    raises [e] on every call. *)
Definition answering (v : pyval) : AQIAnalyzer :=
  {| firecrawl := {| extract := fun _ _ => Ret v |} |}.
Definition failing (e : exn) : AQIAnalyzer :=
  {| firecrawl := {| extract := fun _ _ => Raise e |} |}.

(** An extraction client that raises on every call, with the URLs it was
    asked for as message. *)
Definition echoing : AQIAnalyzer :=
  {| firecrawl :=
       {| extract := fun urls _ => Raise (Exn "Echo" (String.concat " " urls)) |} |}.

(** A generation client that answers every call with the one choice [text],
    and one that raises [e] on every call. *)
Definition replying (text : string) : Groq :=
  {| chat_completions_create := fun _ _ => Ret {| choices := [text] |} |}.
Definition refusing (e : exn) : Groq :=
  {| chat_completions_create := fun _ _ => Raise e |}.

(** A platform with both keys set, whose constructors hand out the given
    clients. *)
Definition platform_of (a : AQIAnalyzer) (g : Groq) : Platform :=
  {| getenv := fun _ => Some "key";
     FirecrawlApp_new := fun _ => Ret (firecrawl a);
     Groq_new := fun _ => Ret g |}.

(** A response as the extraction service sends it. *)
Definition response_of (ok : bool) (d : gmap string pyval) : pyval :=
  VDict (<["success" := VBool ok]> (<["data" := VDict d]>
        (<["status" := VStr "completed"]>
        (<["expiresAt" := VStr "2025-01-01T00:00:00.000Z"]> ∅)))).

(** The seven metrics of a complete reading. *)
Definition reading (wind_speed : pyval) : gmap string pyval :=
  <["aqi" := VFloat (float_of_Z 57)]>
  (<["temperature" := VFloat (float_of_Z 29)]>
  (<["humidity" := VFloat (float_of_Z 64)]>
  (<["wind_speed" := wind_speed]>
  (<["pm25" := VFloat (float_of_Z 42)]>
  (<["pm10" := VFloat (float_of_Z 80)]>
  (<["co" := VFloat (float_of_Z 310)]> ∅)))))).

(** ** Vocabulary of the further properties *)

(** The order in which the f-string of [_create_prompt] and the dictionary
    literal of [analyze_conditions] subscript the metrics mapping. *)
Definition metric_order : list string :=
  [ "aqi"; "pm25"; "pm10"; "co"; "temperature"; "humidity"; "wind_speed" ].

(** * Properties *)

(** ** Strings *)

Lemma append_cons c s t : String c s +:+ t = String c (s +:+ t).
Proof. reflexivity. Qed.

Lemma append_assoc (a b c : string) : (a +:+ b) +:+ c = a +:+ (b +:+ c).
Proof.
  induction a as [|x a IH]; [reflexivity |].
  rewrite !append_cons. by f_equal.
Qed.

Lemma strip_prefix_app p s : strip_prefix p (p +:+ s) = Some s.
Proof.
  induction p as [|a p IH]; simpl; [reflexivity |].
  by rewrite Ascii.eqb_refl.
Qed.

Lemma split_without sep s : has_char sep s = false -> split sep s = [s].
Proof.
  induction s as [|c s IH]; simpl; [reflexivity |].
  intros [Hc Hs]%orb_false_elim. rewrite Hc, (IH Hs). reflexivity.
Qed.

Lemma split_at_first sep a b :
  has_char sep a = false ->
  split sep (a +:+ String sep b) = a :: split sep b.
Proof.
  induction a as [|c a IH]; simpl.
  - intros _. by rewrite Ascii.eqb_refl.
  - intros [Hc Ha]%orb_false_elim. rewrite Hc, (IH Ha). reflexivity.
Qed.

(** A character occurs in a string when its count is not zero. *)
Lemma has_char_count c s : has_char c s = negb (Nat.eqb (count_char c s) 0).
Proof.
  induction s as [|c' s IH]; [reflexivity |]. simpl.
  destruct (Ascii.eqb c' c); [reflexivity | exact IH].
Qed.

Lemma replace_without old new s :
  has_char old s = false -> replace old new s = s.
Proof.
  induction s as [|c s IH]; [reflexivity |]. simpl.
  intros [Hc Hs]%orb_false_elim. by rewrite Hc, (IH Hs).
Qed.

Lemma replace_app old new a b :
  replace old new (a +:+ b) = replace old new a +:+ replace old new b.
Proof.
  induction a as [|c a IH]; [reflexivity |].
  rewrite append_cons. simpl. rewrite append_cons. by f_equal.
Qed.

Lemma no_space_after_replace s : has_char " " (replace " " "-" s) = false.
Proof.
  induction s as [|c s IH]; [reflexivity |]. simpl. rewrite IH.
  by destruct (Ascii.eqb c " ") eqn:Hc; [| rewrite Hc].
Qed.

Lemma count_slash_replace s :
  count_char "/" (replace " " "-" s) = count_char "/" s.
Proof.
  induction s as [|c s IH]; [reflexivity |]. simpl. rewrite IH. f_equal.
  destruct (Ascii.eqb_spec c " ") as [-> |]; reflexivity.
Qed.

Lemma is_clean_app a b : is_clean (a +:+ b) = is_clean a && is_clean b.
Proof.
  induction a as [|c a IH]; [reflexivity |].
  rewrite append_cons. simpl. rewrite IH. by rewrite andb_assoc.
Qed.

(** Once the spaces of a string without upper-case letters are replaced, no
    space and no upper-case letter is left. *)
Lemma is_clean_replace s :
  has_upper s = false -> is_clean (replace " " "-" s) = true.
Proof.
  induction s as [|c s IH]; [reflexivity |]. simpl.
  intros [Hc Hs]%orb_false_elim. rewrite (IH Hs), andb_true_r.
  destruct (Ascii.eqb c " ") eqn:Hsp; [reflexivity |].
  by rewrite Hc, Hsp.
Qed.

(** ** The case mapping of ASCII text *)

Ltac each_char c :=
  destruct c as [[] [] [] [] [] [] [] []]; vm_compute; try reflexivity; try congruence.

Lemma ascii_lower_char_idem c :
  ascii_lower_char (ascii_lower_char c) = ascii_lower_char c.
Proof. each_char c. Qed.

Lemma ascii_lower_char_replace c :
  ascii_lower_char (if Ascii.eqb c " " then "-"%char else c)
    = if Ascii.eqb (ascii_lower_char c) " " then "-"%char else ascii_lower_char c.
Proof. each_char c. Qed.

Lemma ascii_lower_char_upper c : is_upper (ascii_lower_char c) = false.
Proof. each_char c. Qed.

Lemma ascii_lower_char_slash c :
  Ascii.eqb (ascii_lower_char c) "/" = Ascii.eqb c "/".
Proof. each_char c. Qed.

Lemma ascii_lower_char_space c :
  Ascii.eqb (ascii_lower_char c) " " = Ascii.eqb c " ".
Proof. each_char c. Qed.

Lemma ascii_lower_app a b :
  ascii_lower (a +:+ b) = ascii_lower a +:+ ascii_lower b.
Proof.
  induction a as [|c a IH]; [reflexivity |].
  rewrite append_cons. simpl. rewrite append_cons. by f_equal.
Qed.

(** [ascii_lower] has the facts asked of a case mapping.  It is [str.lower]
    on ASCII strings, and serves to run the program on ASCII examples. *)
#[export] Program Instance ascii_case_mapping : CaseMapping :=
  {| lower := ascii_lower |}.
Next Obligation. reflexivity. Qed.
Next Obligation.
  intros s. induction s as [|c s IH]; [reflexivity |].
  cbn [ascii_lower]. by rewrite ascii_lower_char_idem, IH.
Qed.
Next Obligation.
  intros s. induction s as [|c s IH]; [reflexivity |].
  cbn [ascii_lower replace]. by rewrite ascii_lower_char_replace, IH.
Qed.
Next Obligation. intros a b. rewrite ascii_lower_app. reflexivity. Qed.
Next Obligation.
  intros s. induction s as [|c s IH]; [reflexivity |].
  cbn [ascii_lower has_upper]. by rewrite ascii_lower_char_upper, IH.
Qed.
Next Obligation.
  intros s. induction s as [|c s IH]; [reflexivity |].
  cbn [ascii_lower count_char]. by rewrite ascii_lower_char_slash, IH.
Qed.
Next Obligation.
  intros s. induction s as [|c s IH]; [reflexivity |].
  cbn [ascii_lower count_char]. by rewrite ascii_lower_char_space, IH.
Qed.
Next Obligation. intros s. by destruct s. Qed.

(** ** The location URL formatter *)

Section FormatterProperties.
Context {L : CaseMapping}.

Lemma has_slash_lower s : has_char "/" (lower s) = has_char "/" s.
Proof. by rewrite !has_char_count, lower_count_slash. Qed.

Lemma has_space_lower s : has_char " " (lower s) = has_char " " s.
Proof. by rewrite !has_char_count, lower_count_space. Qed.

Lemma count_slash_clean s : count_char "/" (clean s) = count_char "/" s.
Proof. unfold clean. by rewrite count_slash_replace, lower_count_slash. Qed.

Lemma has_char_slash_clean s : has_char "/" (clean s) = has_char "/" s.
Proof. by rewrite !has_char_count, count_slash_clean. Qed.

(** A string that is lowered already and has no space is left as it is. *)
Lemma clean_fixed s : lower s = s -> has_char " " s = false -> clean s = s.
Proof. intros Hl Hs. unfold clean. rewrite Hl. by apply replace_without. Qed.

(** What [clean] returns is lowered and has no space. *)
Lemma clean_normalized s :
  lower (clean s) = clean s /\ has_char " " (clean s) = false.
Proof.
  unfold clean. split.
  - by rewrite lower_replace, lower_lower.
  - apply no_space_after_replace.
Qed.

Lemma clean_clean s : clean (clean s) = clean s.
Proof. destruct (clean_normalized s) as [Hl Hs]. by apply clean_fixed. Qed.

(** The strings that are already normalized are the values of [clean]. *)
Lemma normalized_image s :
  lower s = s /\ has_char " " s = false <-> exists t, s = clean t.
Proof.
  split.
  - intros [Hl Hs]. exists s. symmetry. by apply clean_fixed.
  - intros [t ->]. apply clean_normalized.
Qed.

Lemma is_clean_clean s : is_clean (clean s) = true.
Proof. unfold clean. apply is_clean_replace, lower_no_upper. Qed.

(** [clean] goes through a ['/']. *)
Lemma clean_slash a b : clean (a +:+ String "/" b) = clean a +:+ String "/" (clean b).
Proof. unfold clean. by rewrite lower_slash, replace_app. Qed.

(** On ASCII inputs the URL is the one that the ASCII case mapping gives. *)
Lemma format_url_ascii country state city :
  ascii_only country = true -> ascii_only state = true -> ascii_only city = true ->
  _format_url country state city
    = _format_url (L := ascii_case_mapping) country state city.
Proof.
  intros Hc Hs Hy. unfold _format_url, state_omitted, clean.
  by rewrite (lower_ascii country Hc), (lower_ascii state Hs), (lower_ascii city Hy).
Qed.

Lemma state_omitted_true state :
  state_omitted state = true <-> state = EmptyString \/ lower state = "none".
Proof.
  unfold state_omitted. rewrite orb_true_iff, String.eqb_eq.
  destruct state; simpl; intuition congruence.
Qed.

Lemma state_omitted_false state :
  state_omitted state = false <-> state <> EmptyString /\ lower state <> "none".
Proof.
  rewrite <- not_true_iff_false, state_omitted_true. tauto.
Qed.

(** The URL is the fixed prefix followed by the normalized parts, with one
    ['/'] between them. *)
Lemma format_url_shape country state city :
  _format_url country state city =
    dashboard_prefix +:+
      (if state_omitted state
       then clean country +:+ String "/" (clean city)
       else clean country +:+ String "/" (clean state +:+ String "/" (clean city))).
Proof. unfold _format_url. destruct (state_omitted state); reflexivity. Qed.

Lemma format_url_segments country state city :
  has_char "/" country = false ->
  has_char "/" state = false ->
  has_char "/" city = false ->
  path_segments (_format_url country state city) =
    Some (if state_omitted state
          then [clean country; clean city]
          else [clean country; clean state; clean city]).
Proof.
  intros Hcountry Hstate Hcity.
  unfold path_segments. rewrite format_url_shape, strip_prefix_app. simpl.
  f_equal.
  destruct (state_omitted state).
  - rewrite split_at_first by (by rewrite has_char_slash_clean).
    rewrite split_without by (by rewrite has_char_slash_clean).
    reflexivity.
  - rewrite split_at_first by (by rewrite has_char_slash_clean).
    rewrite split_at_first by (by rewrite has_char_slash_clean).
    rewrite split_without by (by rewrite has_char_slash_clean).
    reflexivity.
Qed.

(** C4 (as amended).  For a country, a state and a city without ['/'] in
    them: when the state is empty or case-insensitively equal to ["none"],
    the URL has exactly the two path segments country and city after the
    fixed prefix; when the state is not empty and not case-insensitively
    equal to ["none"], it has exactly the three segments country, state and
    city.  Each segment is the input lowercased with spaces replaced by
    hyphens. *)
Theorem format_url_two_or_three_segments country state city :
  has_char "/" country = false ->
  has_char "/" state = false ->
  has_char "/" city = false ->
  (state = EmptyString \/ lower state = "none" ->
   path_segments (_format_url country state city)
     = Some [replace " " "-" (lower country); replace " " "-" (lower city)])
  /\
  (state <> EmptyString /\ lower state <> "none" ->
   path_segments (_format_url country state city)
     = Some [replace " " "-" (lower country); replace " " "-" (lower state);
             replace " " "-" (lower city)]).
Proof.
  intros Hcountry Hstate Hcity.
  rewrite (format_url_segments _ _ _ Hcountry Hstate Hcity).
  split.
  - intros Hs%state_omitted_true. by rewrite Hs.
  - intros Hs%state_omitted_false. by rewrite Hs.
Qed.

(** C9.  The normalization of a location segment is idempotent: applying it
    twice is applying it once, and a string that is already normalized
    (lowering leaves it as it is, and it has no space) comes back
    unchanged. *)
Theorem clean_idempotent s :
  replace " " "-" (lower (replace " " "-" (lower s))) = replace " " "-" (lower s)
  /\ (lower s = s -> has_char " " s = false -> replace " " "-" (lower s) = s).
Proof.
  split.
  - apply clean_clean.
  - apply clean_fixed.
Qed.

End FormatterProperties.

Lemma format_url_two_or_three_segments_witness :
  path_segments (_format_url "United States" "None" "New York")
    = Some ["united-states"; "new-york"]
  /\ path_segments (_format_url "India" "Andhra Pradesh" "Kakinada")
    = Some ["india"; "andhra-pradesh"; "kakinada"].
Proof.
  split.
  - exact (proj1 (format_url_two_or_three_segments
                    "United States" "None" "New York" eq_refl eq_refl eq_refl)
             (or_intror eq_refl)).
  - refine (proj2 (format_url_two_or_three_segments
                     "India" "Andhra Pradesh" "Kakinada" eq_refl eq_refl eq_refl) _).
    split; vm_compute; discriminate.
Defined.

(** C4 as stated fails: nothing keeps a ['/'] out of the inputs, and a city
    with one in it yields one more path segment. *)
Lemma format_url_segments_counterexample :
  path_segments (_format_url "India" "" "Delhi/NCR")
    = Some ["india"; "delhi"; "ncr"]
  /\ ~ (forall country state city,
          state = EmptyString \/ lower state = "none" ->
          path_segments (_format_url country state city)
            = Some [replace " " "-" (lower country); replace " " "-" (lower city)]).
Proof.
  split; [reflexivity |].
  intros Hall. specialize (Hall "India" "" "Delhi/NCR" (or_introl eq_refl)).
  discriminate Hall.
Qed.

Lemma clean_idempotent_witness :
  lower "new-york" = "new-york"
  /\ has_char " " "new-york" = false
  /\ replace " " "-" (lower "new-york") = "new-york".
Proof.
  split; [reflexivity |]. split; [reflexivity |].
  apply (proj2 (clean_idempotent "new-york")); reflexivity.
Defined.

(** ** The exact validation is a validation *)

Lemma dom_omap_as_float (d : gmap string pyval) :
  map_Forall (fun _ v => is_Some (as_float v)) d ->
  dom (omap as_float d) = dom d.
Proof.
  intros Hd. apply set_eq. intros k.
  rewrite !elem_of_dom, lookup_omap.
  destruct (d !! k) as [v|] eqn:Hk; simpl.
  - split; [by eauto |]. intros _. exact (Hd k v Hk).
  - split; intros [? ?]; discriminate.
Qed.

Lemma exact_validate_Ret r a :
  exact_validate r = Ret a ->
  exists b d s x,
    r !! "success" = Some (VBool b) /\ r !! "data" = Some (VDict d)
    /\ r !! "status" = Some (VStr s) /\ r !! "expiresAt" = Some (VStr x)
    /\ map_Forall (fun _ v => is_Some (as_float v)) d
    /\ a = AQIResponse.make b (omap as_float d) s x.
Proof.
  unfold exact_validate.
  destruct (r !! "success") as [[]|]; try discriminate.
  destruct (r !! "data") as [[]|]; try discriminate.
  destruct (r !! "status") as [[]|]; try discriminate.
  destruct (r !! "expiresAt") as [[]|]; try discriminate.
  case_decide; [| discriminate].
  intros [= <-]. eauto 10.
Qed.

#[export] Program Instance exact_validation : Validation :=
  {| validate := exact_validate |}.
Next Obligation.
  intros r b d s x Hb Hd Hs Hx Hall. unfold exact_validate.
  rewrite Hb, Hd, Hs, Hx. by rewrite decide_True.
Qed.
Next Obligation.
  intros r a b (b' & d & s & x & Hb & _ & _ & _ & _ & ->)%exact_validate_Ret Hb'.
  simpl. congruence.
Qed.
Next Obligation.
  intros r a d (b & d' & s & x & _ & Hd & _ & _ & Hall & ->)%exact_validate_Ret Hd'.
  simpl. assert (d' = d) as -> by congruence. by apply dom_omap_as_float.
Qed.

(** ** The metrics fetcher *)

Lemma dom_zero_metrics : dom zero_metrics = metric_keys.
Proof.
  unfold zero_metrics, metric_keys. rewrite !dom_insert_L, dom_empty_L.
  set_solver.
Qed.

Section FetcherProperties.
Context {L : CaseMapping} {V : Validation}.

(** When the [try] block returns: the service answered with a dictionary
    whose [data] is a dictionary with a [wind_speed] item, and the response,
    with a missing wind speed filled in, was accepted and says [success]. *)
Lemma fetch_try_Ret self city state country m msg :
  fetch_try self city state country = Ret (m, msg) <->
  exists r d w a,
    extract_call self (_format_url country state city) = Ret (VDict r)
    /\ r !! "data" = Some (VDict d)
    /\ d !! "wind_speed" = Some w
    /\ validate (if is_None w then set_wind_speed r d else r) = Ret a
    /\ AQIResponse.success a = true
    /\ m = PFloat <$> AQIResponse.data a
    /\ msg = "Accessing URL: " +:+ _format_url country state city.
Proof.
  unfold fetch_try. split.
  - destruct (extract_call _ _) as [[]|]; try discriminate. simpl.
    unfold dict_getitem.
    destruct (d !! "data") as [[]|] eqn:Hdata; try discriminate. simpl.
    destruct (d0 !! "wind_speed") as [w|] eqn:Hw; try discriminate. simpl.
    destruct (validate _) as [a|] eqn:Ha; try discriminate. simpl.
    destruct (AQIResponse.success a) eqn:Hok; try discriminate. simpl.
    intros [= <- <-]. exists d, d0, w, a. auto 10.
  - intros (r & d & w & a & -> & Hr & Hd & Ha & Hok & -> & ->). simpl.
    unfold dict_getitem. rewrite Hr. simpl. rewrite Hd. simpl.
    rewrite Ha. simpl. rewrite Hok. reflexivity.
Qed.

Lemma fetch_try_extract_raises self city state country e :
  extract_call self (_format_url country state city) = Raise e ->
  fetch_try self city state country = Raise e.
Proof. unfold fetch_try. by intros ->. Qed.

(** The wind speed filled in does not touch the other fields of the
    response, and adds no key to its [data]. *)
Lemma set_wind_speed_other (r d : gmap string pyval) k :
  k <> "data" -> set_wind_speed r d !! k = r !! k.
Proof. intros Hk. unfold set_wind_speed. by rewrite lookup_insert_ne. Qed.

Lemma patched_data (r d : gmap string pyval) w :
  r !! "data" = Some (VDict d) ->
  d !! "wind_speed" = Some w ->
  exists d', (if is_None w then set_wind_speed r d else r) !! "data" = Some (VDict d')
             /\ dom d' = dom d.
Proof.
  intros Hr Hd. destruct (is_None w).
  - exists (<["wind_speed" := VFloat (S754_zero false)]> d). split.
    + unfold set_wind_speed. by rewrite lookup_insert_eq.
    + rewrite dom_insert_L. apply elem_of_dom_2 in Hd.
      apply set_eq. intros k. rewrite elem_of_union, elem_of_singleton.
      split; [intros [->|Hk]; assumption | auto].
  - by exists d.
Qed.

(** What the fetcher returns is the fallback pair of the exception that left
    the [try] block, or the pair the block returned. *)
Lemma fetch_aqi_data_cases self city state country :
  (exists e,
     fetch_try self city state country = Raise e
     /\ fetch_aqi_data self city state country
        = (zero_metrics, "Error fetching AQI data: " +:+ exn_msg e))
  \/ (exists m msg,
        fetch_try self city state country = Ret (m, msg)
        /\ fetch_aqi_data self city state country = (m, msg)).
Proof.
  unfold fetch_aqi_data.
  destruct (fetch_try self city state country) as [[m msg]|e]; eauto 6.
Qed.

(** C1 (as amended).  The mapping returned by the fetcher always has the
    key [wind_speed].  When the call fails, that is when an exception leaves
    the [try] block, it has exactly the seven metric keys.  When the call
    succeeds, that is when the response, with a null wind speed filled in, is
    accepted and says [success], the [try] block returns and the mapping has
    exactly the keys of the [data] object of the response; the [try] block
    returns in no other case.  So the mapping has exactly the seven keys
    whenever the response carries exactly those. *)
Theorem fetch_keys self city state country :
  let m := (fetch_aqi_data self city state country).1 in
  "wind_speed" ∈ dom m
  /\ (forall e,
        fetch_try self city state country = Raise e -> dom m = metric_keys)
  /\ (forall r d w a,
        extract_call self (_format_url country state city) = Ret (VDict r) ->
        r !! "data" = Some (VDict d) ->
        d !! "wind_speed" = Some w ->
        validate (if is_None w then set_wind_speed r d else r) = Ret a ->
        AQIResponse.success a = true ->
        fetch_try self city state country
          = Ret (m, "Accessing URL: " +:+ _format_url country state city)
        /\ dom m = dom d)
  /\ (forall m' msg,
        fetch_try self city state country = Ret (m', msg) ->
        exists r d,
          extract_call self (_format_url country state city) = Ret (VDict r)
          /\ r !! "data" = Some (VDict d)
          /\ m = m' /\ dom m = dom d)
  /\ (forall r d,
        extract_call self (_format_url country state city) = Ret (VDict r) ->
        r !! "data" = Some (VDict d) ->
        dom d = metric_keys ->
        dom m = metric_keys).
Proof.
  intros m.
  assert (Hw : "wind_speed" ∈ metric_keys).
  { unfold metric_keys. set_solver. }
  assert (Hfail : forall e,
            fetch_try self city state country = Raise e -> dom m = metric_keys).
  { intros e He. subst m. unfold fetch_aqi_data. rewrite He. simpl.
    apply dom_zero_metrics. }
  assert (Hret : forall m' msg,
            fetch_try self city state country = Ret (m', msg) ->
            exists r d,
              extract_call self (_format_url country state city) = Ret (VDict r)
              /\ r !! "data" = Some (VDict d)
              /\ m = m' /\ dom m = dom d /\ "wind_speed" ∈ dom d).
  { intros m' msg Htry.
    assert (Hm : m = m') by (subst m; unfold fetch_aqi_data; by rewrite Htry).
    apply fetch_try_Ret in Htry
      as (r & d & w & a & Hcall & Hr & Hd & Ha & _ & -> & _).
    destruct (patched_data r d w Hr Hd) as (d' & Hr' & Hdom).
    exists r, d. repeat split; try assumption.
    - rewrite Hm, dom_fmap_L, (validate_data _ _ _ Ha Hr'). exact Hdom.
    - by apply elem_of_dom_2 in Hd. }
  split; [| split; [exact Hfail | split; [| split]]].
  - destruct (fetch_try self city state country) as [[m' msg]|e] eqn:Htry.
    + destruct (Hret m' msg eq_refl) as (r & d & _ & _ & _ & -> & Hin). exact Hin.
    + by rewrite (Hfail e eq_refl).
  - intros r d w a Hcall Hr Hd Ha Hok.
    assert (Htry : fetch_try self city state country
                   = Ret (PFloat <$> AQIResponse.data a,
                          "Accessing URL: " +:+ _format_url country state city))
      by (apply fetch_try_Ret; exists r, d, w, a; auto 10).
    destruct (Hret _ _ Htry) as (r' & d' & Hcall' & Hr' & Hm & Hdom & _).
    rewrite Hm. split; [exact Htry |].
    rewrite <- Hm, Hdom. congruence.
  - intros m' msg Htry.
    destruct (Hret m' msg Htry) as (r & d & ? & ? & ? & ? & _). eauto 8.
  - intros r d Hcall Hr Hd.
    destruct (fetch_try self city state country) as [[m' msg]|e] eqn:Htry.
    + destruct (Hret m' msg eq_refl) as (r' & d' & Hcall' & Hr' & _ & -> & _).
      congruence.
    + exact (Hfail e eq_refl).
Qed.

(** C5.  For Mumbai, Maharashtra, India the lookup URL that the fetcher
    hands to the extraction service, alone in the list of URLs, is
    "https://www.aqi.in/dashboard/india/maharashtra/mumbai/*"; for Delhi, no
    state, India it is "https://www.aqi.in/dashboard/india/delhi/*".  It is
    so for the call that the fetcher makes on any client, and a client that
    raises with the URLs it was asked for makes the fetcher return them in
    its message. *)
Theorem lookup_url_scenarios :
  (forall self,
     extract_call self (_format_url "India" "Maharashtra" "Mumbai")
       = extract (firecrawl self)
           [ "https://www.aqi.in/dashboard/india/maharashtra/mumbai/*" ]
           {| prompt := extract_prompt; schema := ExtractSchema |})
  /\ (forall self,
        extract_call self (_format_url "India" "" "Delhi")
          = extract (firecrawl self)
              [ "https://www.aqi.in/dashboard/india/delhi/*" ]
              {| prompt := extract_prompt; schema := ExtractSchema |})
  /\ fetch_aqi_data echoing "Mumbai" "Maharashtra" "India"
       = (zero_metrics,
          "Error fetching AQI data: https://www.aqi.in/dashboard/india/maharashtra/mumbai/*")
  /\ fetch_aqi_data echoing "Delhi" "" "India"
       = (zero_metrics,
          "Error fetching AQI data: https://www.aqi.in/dashboard/india/delhi/*").
Proof.
  pose proof (format_url_ascii "India" "Maharashtra" "Mumbai"
                eq_refl eq_refl eq_refl) as Hmumbai.
  pose proof (format_url_ascii "India" "" "Delhi" eq_refl eq_refl eq_refl)
    as Hdelhi.
  split; [| split; [| split]].
  - intros self. by rewrite Hmumbai.
  - intros self. by rewrite Hdelhi.
  - unfold fetch_aqi_data, fetch_try. by rewrite Hmumbai.
  - unfold fetch_aqi_data, fetch_try. by rewrite Hdelhi.
Qed.

(** C2.  A response whose [success] field is [False] yields the zero-filled
    mapping and an error message, never the reported data. *)
Theorem fetch_unsuccessful self city state country r :
  extract_call self (_format_url country state city) = Ret (VDict r) ->
  r !! "success" = Some (VBool false) ->
  exists e,
    fetch_aqi_data self city state country
      = (zero_metrics, "Error fetching AQI data: " +:+ exn_msg e).
Proof.
  intros Hcall Hfalse.
  destruct (fetch_aqi_data_cases self city state country)
    as [(e & _ & ->)|(m & msg & Htry & _)]; [by eauto |].
  apply fetch_try_Ret in Htry
    as (r' & d & w & a & Hcall' & Hr & Hd & Ha & Hok & _ & _).
  assert (r' = r) as -> by congruence.
  assert (Hs : (if is_None w then set_wind_speed r d else r) !! "success"
               = Some (VBool false)).
  { destruct (is_None w); [rewrite set_wind_speed_other |]; done. }
  rewrite (validate_success _ _ _ Ha Hs) in Hok. discriminate.
Qed.

(** C6.  An exception raised by the extraction call, or anywhere else in
    the [try] block, does not leave the fetcher: the zero-filled mapping comes
    back with the exception's message behind the fixed prefix. *)
Theorem fetch_never_raises self city state country e :
  extract_call self (_format_url country state city) = Raise e
  \/ fetch_try self city state country = Raise e ->
  fetch_aqi_data self city state country
    = (<["aqi" := PInt 0]> (<["temperature" := PInt 0]> (<["humidity" := PInt 0]>
      (<["wind_speed" := PInt 0]> (<["pm25" := PInt 0]> (<["pm10" := PInt 0]>
      (<["co" := PInt 0]> ∅)))))),
       "Error fetching AQI data: " +:+ exn_msg e).
Proof.
  intros [Hcall%fetch_try_extract_raises|Htry];
    unfold fetch_aqi_data; by rewrite ?Hcall, ?Htry.
Qed.

(** C3 (as amended).  When the response has a [wind_speed] item that is
    [None], and otherwise reports success with fields of the declared types,
    the fetcher puts 0.0 in its place and returns through the success path:
    the reported data and the "Accessing URL" message.  When the response has
    no [wind_speed] item, the lookup raises and the fetcher returns the
    zero-filled fallback. *)
Theorem fetch_wind_speed self city state country r d :
  extract_call self (_format_url country state city) = Ret (VDict r) ->
  r !! "data" = Some (VDict d) ->
  (forall s x,
     d !! "wind_speed" = Some VNone ->
     r !! "success" = Some (VBool true) ->
     r !! "status" = Some (VStr s) ->
     r !! "expiresAt" = Some (VStr x) ->
     map_Forall (fun k v => k = "wind_speed" \/ is_Some (as_float v)) d ->
     let m := PFloat <$> omap as_float (<["wind_speed" := VFloat (S754_zero false)]> d) in
     fetch_aqi_data self city state country
       = (m, "Accessing URL: " +:+ _format_url country state city)
     /\ m !! "wind_speed" = Some (PFloat (S754_zero false)))
  /\
  (d !! "wind_speed" = None ->
   fetch_aqi_data self city state country
     = (zero_metrics, "Error fetching AQI data: 'wind_speed'")).
Proof.
  intros Hcall Hr. split.
  - intros s x Hd Hok Hs Hx Hall m. split.
    + unfold fetch_aqi_data.
      replace (fetch_try self city state country)
        with (Ret (m, "Accessing URL: " +:+ _format_url country state city));
        [reflexivity |].
      symmetry. apply fetch_try_Ret.
      exists r, d, VNone,
        (AQIResponse.make true
           (omap as_float (<["wind_speed" := VFloat (S754_zero false)]> d)) s x).
      repeat split; try assumption. simpl.
      apply validate_typed.
      * by rewrite set_wind_speed_other.
      * unfold set_wind_speed. by rewrite lookup_insert_eq.
      * by rewrite set_wind_speed_other.
      * by rewrite set_wind_speed_other.
      * intros k v. rewrite lookup_insert. case_decide as Hk.
        -- intros [= <-]. by eexists.
        -- intros Hv. destruct (Hall k v Hv) as [->|Hf]; [done | exact Hf].
    + subst m. by rewrite lookup_fmap, lookup_omap, lookup_insert_eq.
  - intros Hd. unfold fetch_aqi_data, fetch_try. rewrite Hcall. simpl.
    unfold dict_getitem. rewrite Hr. simpl. rewrite Hd. reflexivity.
Qed.

End FetcherProperties.

(** *** The fetcher on concrete services *)

Lemma fetch_unsuccessful_witness :
  exists e,
    fetch_aqi_data (answering (response_of false (reading (VFloat (float_of_Z 9)))))
      "Mumbai" "Maharashtra" "India"
      = (zero_metrics, "Error fetching AQI data: " +:+ exn_msg e).
Proof.
  apply (fetch_unsuccessful (V := exact_validation)
           (answering (response_of false (reading (VFloat (float_of_Z 9)))))
           "Mumbai" "Maharashtra" "India" _ eq_refl).
  reflexivity.
Defined.

Lemma fetch_never_raises_witness :
  fetch_aqi_data (failing connection_error) "Delhi" "" "India"
    = (zero_metrics, "Error fetching AQI data: Connection refused").
Proof.
  apply (fetch_never_raises (V := exact_validation)
           (failing connection_error) "Delhi" "" "India" connection_error).
  left. reflexivity.
Defined.

Lemma fetch_wind_speed_witness :
  let m := PFloat <$> omap as_float
             (<["wind_speed" := VFloat (S754_zero false)]> (reading VNone)) in
  fetch_aqi_data (answering (response_of true (reading VNone)))
    "Mumbai" "Maharashtra" "India"
    = (m, "Accessing URL: " +:+ _format_url "India" "Maharashtra" "Mumbai")
  /\ m !! "wind_speed" = Some (PFloat (S754_zero false)).
Proof.
  refine (proj1 (fetch_wind_speed (V := exact_validation)
                   (answering (response_of true (reading VNone)))
                   "Mumbai" "Maharashtra" "India" _ (reading VNone) eq_refl eq_refl)
            "completed" "2025-01-01T00:00:00.000Z" eq_refl eq_refl eq_refl eq_refl _).
  apply map_Forall_lookup. intros k v.
  unfold reading. rewrite !lookup_insert, lookup_empty.
  repeat case_decide; intros [= <-]; subst; auto; right; by eexists.
Defined.

Lemma dom_reading w : dom (reading w) = metric_keys.
Proof.
  unfold reading, metric_keys. rewrite !dom_insert_L, dom_empty_L. set_solver.
Qed.

Lemma fetch_keys_witness :
  let m := (fetch_aqi_data (answering (response_of true (reading VNone)))
              "Mumbai" "Maharashtra" "India").1 in
  dom m = dom (reading VNone) /\ dom m = metric_keys.
Proof.
  pose proof (fetch_keys (V := exact_validation)
                (answering (response_of true (reading VNone)))
                "Mumbai" "Maharashtra" "India") as (_ & _ & Hok & _ & Hseven).
  split.
  - eapply proj2,
      (Hok _ (reading VNone) VNone
         (AQIResponse.make true
            (omap as_float
               (<["wind_speed" := VFloat (S754_zero false)]> (reading VNone)))
            "completed" "2025-01-01T00:00:00.000Z"));
      vm_compute; reflexivity.
  - exact (Hseven _ (reading VNone) eq_refl eq_refl (dom_reading VNone)).
Defined.

(** C1 as stated fails: a response that reports success and lacks the [co]
    item is accepted, and the mapping returned lacks [co] too. *)
Lemma fetch_keys_counterexample :
  let m := (fetch_aqi_data
              (answering (response_of true (delete "co" (reading (VFloat (float_of_Z 9))))))
              "Mumbai" "Maharashtra" "India").1 in
  m !! "co" = None /\ dom m <> metric_keys.
Proof.
  assert (Hco : (fetch_aqi_data
              (answering (response_of true (delete "co" (reading (VFloat (float_of_Z 9))))))
              "Mumbai" "Maharashtra" "India").1 !! "co" = None) by reflexivity.
  split; [exact Hco |].
  intros Hdom. apply not_elem_of_dom in Hco. apply Hco. rewrite Hdom.
  unfold metric_keys. set_solver.
Qed.

(** C3 as stated fails for a response without a [wind_speed] item: the
    lookup raises [KeyError] and the fallback is returned. *)
Lemma fetch_wind_speed_counterexample :
  fetch_aqi_data
    (answering (response_of true (delete "wind_speed" (reading VNone))))
    "Mumbai" "Maharashtra" "India"
  = (zero_metrics, "Error fetching AQI data: 'wind_speed'").
Proof. reflexivity. Qed.

(** ** The prompt and the display structure *)

(** A line in the middle of a text stands between two separators. *)
Lemma concat_middle sep (xs : list string) x y (ys : list string) :
  xs <> [] ->
  String.concat sep (xs ++ x :: y :: ys)
    = String.concat sep xs +:+ sep +:+ x +:+ sep +:+ String.concat sep (y :: ys).
Proof.
  induction xs as [|a [|b xs] IH]; intros Hxs; [done | reflexivity |].
  change (String.concat sep ((a :: b :: xs) ++ x :: y :: ys))
    with (a +:+ sep +:+ String.concat sep ((b :: xs) ++ x :: y :: ys)).
  rewrite IH by done.
  change (String.concat sep (a :: b :: xs))
    with (a +:+ sep +:+ String.concat sep (b :: xs)).
  by rewrite !append_assoc.
Qed.

Lemma metric_Ret (aqi_data : gmap string pynum) k v :
  aqi_data !! k = Some v -> metric aqi_data k = Ret v.
Proof. unfold metric. by intros ->. Qed.

Lemma metric_present (aqi_data : gmap string pynum) k :
  metric_keys ⊆ dom aqi_data -> k ∈ metric_keys ->
  exists v, metric aqi_data k = Ret v.
Proof.
  intros Hsub Hk. apply Hsub, elem_of_dom in Hk as [v Hv].
  exists v. by apply metric_Ret.
Qed.

(** C8.  For a metrics mapping with its seven values, the structure built
    for display puts every value next to its unit: pm25 and pm10 before
    " µg/m³", co before " ppb", the temperature before "°C", the humidity
    before "%", the wind speed before " km/h"; 42.0 and 80.0 come out as
    "42.0 µg/m³" and "80.0 µg/m³". *)
Theorem display_units (aqi_data : gmap string pynum)
    aqi pm25 pm10 co temperature humidity wind_speed :
  aqi_data !! "aqi" = Some aqi ->
  aqi_data !! "pm25" = Some pm25 ->
  aqi_data !! "pm10" = Some pm10 ->
  aqi_data !! "co" = Some co ->
  aqi_data !! "temperature" = Some temperature ->
  aqi_data !! "humidity" = Some humidity ->
  aqi_data !! "wind_speed" = Some wind_speed ->
  exists fields,
    display_fields aqi_data = Ret fields
    /\ fields = [ ("Air Quality Index (AQI)", JNum aqi);
                  ("PM2.5", JStr (str_num pm25 +:+ " µg/m³"));
                  ("PM10", JStr (str_num pm10 +:+ " µg/m³"));
                  ("Carbon Monoxide (CO)", JStr (str_num co +:+ " ppb"));
                  ("Temperature", JStr (str_num temperature +:+ "°C"));
                  ("Humidity", JStr (str_num humidity +:+ "%"));
                  ("Wind Speed", JStr (str_num wind_speed +:+ " km/h")) ]
    /\ (pm25 = PFloat (float_of_Z 42) ->
        fields !! 1%nat = Some ("PM2.5", JStr "42.0 µg/m³"))
    /\ (pm10 = PFloat (float_of_Z 80) ->
        fields !! 2%nat = Some ("PM10", JStr "80.0 µg/m³")).
Proof.
  intros Haqi Hpm25 Hpm10 Hco Ht Hh Hw. eexists. split; [| split; [reflexivity |]].
  - unfold display_fields.
    rewrite (metric_Ret _ _ _ Haqi), (metric_Ret _ _ _ Hpm25),
      (metric_Ret _ _ _ Hpm10), (metric_Ret _ _ _ Hco), (metric_Ret _ _ _ Ht),
      (metric_Ret _ _ _ Hh), (metric_Ret _ _ _ Hw).
    reflexivity.
  - split; intros ->; reflexivity.
Qed.

Lemma display_units_witness :
  exists fields,
    display_fields (PFloat <$> omap as_float (reading (VFloat (S754_zero false))))
      = Ret fields
    /\ fields !! 1%nat = Some ("PM2.5", JStr "42.0 µg/m³")
    /\ fields !! 2%nat = Some ("PM10", JStr "80.0 µg/m³").
Proof.
  destruct (display_units
              (PFloat <$> omap as_float (reading (VFloat (S754_zero false))))
              (PFloat (float_of_Z 57)) (PFloat (float_of_Z 42))
              (PFloat (float_of_Z 80)) (PFloat (float_of_Z 310))
              (PFloat (float_of_Z 29)) (PFloat (float_of_Z 64))
              (PFloat (S754_zero false)))
    as (fields & Hfields & _ & H25 & H10); [reflexivity .. |].
  exists fields. split; [exact Hfields |].
  split; [exact (H25 eq_refl) | exact (H10 eq_refl)].
Defined.

(** The text [json.dumps] makes of that structure writes the characters
    outside ASCII as escapes. *)
Lemma display_json_example :
  dumps_indent2 <$> display_fields
      (PFloat <$> omap as_float (reading (VFloat (S754_zero false))))
  = Ret (String.concat newline
      [ "{";
        "  " +:+ quote +:+ "Air Quality Index (AQI)" +:+ quote +:+ ": 57.0,";
        "  " +:+ quote +:+ "PM2.5" +:+ quote +:+ ": " +:+ quote +:+ "42.0 \u00b5g/m\u00b3" +:+ quote +:+ ",";
        "  " +:+ quote +:+ "PM10" +:+ quote +:+ ": " +:+ quote +:+ "80.0 \u00b5g/m\u00b3" +:+ quote +:+ ",";
        "  " +:+ quote +:+ "Carbon Monoxide (CO)" +:+ quote +:+ ": " +:+ quote +:+ "310.0 ppb" +:+ quote +:+ ",";
        "  " +:+ quote +:+ "Temperature" +:+ quote +:+ ": " +:+ quote +:+ "29.0\u00b0C" +:+ quote +:+ ",";
        "  " +:+ quote +:+ "Humidity" +:+ quote +:+ ": " +:+ quote +:+ "64.0%" +:+ quote +:+ ",";
        "  " +:+ quote +:+ "Wind Speed" +:+ quote +:+ ": " +:+ quote +:+ "0.0 km/h" +:+ quote;
        "}" ]).
Proof. reflexivity. Qed.

(** C10.  For a metrics mapping with the seven keys: when the medical
    conditions are [None] or the empty string, the prompt has the line
    "- Medical Conditions: None"; when they are a non-empty string, the line
    carries that string as it is. *)
Theorem prompt_medical_conditions (aqi_data : gmap string pynum) user_input :
  metric_keys ⊆ dom aqi_data ->
  exists text,
    _create_prompt aqi_data user_input = Ret text
    /\ (UserInput.medical_conditions user_input = None
        \/ UserInput.medical_conditions user_input = Some EmptyString ->
        exists pre post,
          text = pre +:+ newline +:+ "        - Medical Conditions: None"
                     +:+ newline +:+ post)
    /\ (forall s,
          UserInput.medical_conditions user_input = Some s ->
          s <> EmptyString ->
          exists pre post,
            text = pre +:+ newline +:+ ("        - Medical Conditions: " +:+ s)
                       +:+ newline +:+ post).
Proof.
  intros Hkeys.
  assert (Hin : forall k, k ∈ metric_keys -> exists v, metric aqi_data k = Ret v)
    by (intros k; by apply metric_present).
  unfold metric_keys in Hin.
  destruct (Hin "aqi") as [aqi Haqi]; [set_solver |].
  destruct (Hin "pm25") as [pm25 Hpm25]; [set_solver |].
  destruct (Hin "pm10") as [pm10 Hpm10]; [set_solver |].
  destruct (Hin "co") as [co Hco]; [set_solver |].
  destruct (Hin "temperature") as [temperature Ht]; [set_solver |].
  destruct (Hin "humidity") as [humidity Hh]; [set_solver |].
  destruct (Hin "wind_speed") as [wind_speed Hw]; [set_solver |].
  unfold _create_prompt. rewrite Haqi, Hpm25, Hpm10, Hco, Ht, Hh, Hw.
  eexists. split; [reflexivity |].
  match goal with
  | |- context [String.concat newline
                  (?l0 :: ?l1 :: ?l2 :: ?l3 :: ?l4 :: ?l5 :: ?l6 :: ?l7 :: ?l8
                     :: ?l9 :: ?l10 :: ?l11 :: ?l12 :: ?l13 :: ?rest)] =>
      change (l0 :: l1 :: l2 :: l3 :: l4 :: l5 :: l6 :: l7 :: l8 :: l9 :: l10
                :: l11 :: l12 :: l13 :: rest)
        with ([l0; l1; l2; l3; l4; l5; l6; l7; l8; l9; l10; l11; l12]
                ++ l13 :: rest);
      rewrite (concat_middle newline) by done
  end.
  split.
  - intros Hnone. do 2 eexists.
    assert (or_None (UserInput.medical_conditions user_input) = "None") as ->
      by (destruct Hnone as [-> | ->]; reflexivity).
    reflexivity.
  - intros s Hs Hne. do 2 eexists.
    assert (or_None (UserInput.medical_conditions user_input) = s) as ->
      by (rewrite Hs; destruct s; [done | reflexivity]).
    reflexivity.
Qed.

Lemma prompt_medical_conditions_witness :
  exists text,
    _create_prompt zero_metrics
      (UserInput.make "Delhi" "" "India" (Some EmptyString) "outdoor yoga session")
      = Ret text
    /\ exists pre post,
         text = pre +:+ newline +:+ "        - Medical Conditions: None"
                    +:+ newline +:+ post.
Proof.
  destruct (prompt_medical_conditions zero_metrics
              (UserInput.make "Delhi" "" "India" (Some EmptyString)
                 "outdoor yoga session"))
    as (text & Htext & Hnone & _).
  - rewrite dom_zero_metrics. reflexivity.
  - exists text. split; [exact Htext |]. apply Hnone. right. reflexivity.
Defined.

(** ** The orchestration function *)

Section OrchestrationProperties.
Context {L : CaseMapping} {V : Validation}.

(** An exception of the generator leaves the [try] block when the steps
    before it went through. *)
Lemma analyze_try_generator_raises P city state country medical_conditions
    planned_activity aqi_analyzer health_agent fields e :
  AQIAnalyzer_init P = Ret aqi_analyzer ->
  HealthRecommendationAgent_init P = Ret health_agent ->
  display_fields (fetch_aqi_data aqi_analyzer city state country).1 = Ret fields ->
  get_recommendations health_agent
    (fetch_aqi_data aqi_analyzer city state country).1
    (UserInput.make city state country (Some medical_conditions) planned_activity)
    = Raise e ->
  analyze_try P city state country medical_conditions planned_activity = Raise e.
Proof.
  intros Ha Hg Hfields Hrec. unfold analyze_try. rewrite Ha, Hg. simpl.
  destruct (fetch_aqi_data aqi_analyzer city state country) as [aqi_data info_msg].
  simpl in *. rewrite Hfields. simpl. by rewrite Hrec.
Qed.

(** C7.  Whatever exception leaves the [try] block of [analyze_conditions],
    one thrown by the recommendation generator included, the function
    returns the empty string, "Analysis failed", "Error occurred: " followed
    by the exception's message, and the empty string. *)
Theorem analyze_failure P city state country medical_conditions planned_activity e :
  analyze_try P city state country medical_conditions planned_activity = Raise e
  \/ (exists aqi_analyzer health_agent fields,
        AQIAnalyzer_init P = Ret aqi_analyzer
        /\ HealthRecommendationAgent_init P = Ret health_agent
        /\ display_fields (fetch_aqi_data aqi_analyzer city state country).1
           = Ret fields
        /\ get_recommendations health_agent
             (fetch_aqi_data aqi_analyzer city state country).1
             (UserInput.make city state country (Some medical_conditions)
                planned_activity)
           = Raise e) ->
  analyze_conditions P city state country medical_conditions planned_activity
    = (EmptyString, "Analysis failed", "Error occurred: " +:+ exn_msg e, EmptyString).
Proof.
  intros Hraise.
  assert (Htry : analyze_try P city state country medical_conditions
                   planned_activity = Raise e).
  { destruct Hraise as [Htry|(a & g & fields & Ha & Hg & Hfields & Hrec)];
      [exact Htry |].
    by eapply analyze_try_generator_raises. }
  unfold analyze_conditions. by rewrite Htry.
Qed.

End OrchestrationProperties.

Lemma analyze_failure_witness :
  analyze_conditions
    (platform_of (answering (response_of true (reading VNone))) (refusing quota_error))
    "Mumbai" "Maharashtra" "India" "asthma" "morning walk for 30 minutes"
  = (EmptyString, "Analysis failed", "Error occurred: Rate limit reached", EmptyString).
Proof.
  apply (analyze_failure (V := exact_validation)
           (platform_of (answering (response_of true (reading VNone)))
              (refusing quota_error))
           "Mumbai" "Maharashtra" "India" "asthma" "morning walk for 30 minutes"
           quota_error).
  right.
  exists (answering (response_of true (reading VNone))),
    {| client := refusing quota_error |}.
  eexists. repeat split; reflexivity.
Defined.

(** A run in which nothing fails. *)
Lemma analyze_success_example :
  exists aqi_json,
    analyze_conditions
      (platform_of (answering (response_of true (reading VNone)))
         (replying "Wear a mask."))
      "Mumbai" "Maharashtra" "India" "asthma" "morning walk for 30 minutes"
    = (aqi_json, "Wear a mask.",
       "Accessing URL: https://www.aqi.in/dashboard/india/maharashtra/mumbai",
       warning_msg).
Proof. eexists. reflexivity. Qed.

(** A response without [co] passes the fetcher, and the display step then
    raises [KeyError]: the run ends in the failure tuple. *)
Lemma analyze_missing_key_example :
  analyze_conditions
    (platform_of
       (answering (response_of true (delete "co" (reading (VFloat (float_of_Z 9))))))
       (replying "Wear a mask."))
    "Mumbai" "Maharashtra" "India" "asthma" "morning walk for 30 minutes"
  = (EmptyString, "Analysis failed", "Error occurred: 'co'", EmptyString).
Proof. reflexivity. Qed.

(** * Further properties *)

(** ** The location URL formatter, further *)

Section FormatterFurther.
Context {L : CaseMapping}.

Lemma truthy_clean s : truthy (clean s) = truthy s.
Proof.
  unfold clean. destruct s as [|c s]; [by rewrite lower_ascii |].
  destruct (lower (String c s)) eqn:Hl; [| reflexivity].
  by apply lower_nonempty in Hl.
Qed.

Lemma unhyphen_char c x :
  x <> "-"%char -> (if Ascii.eqb c " " then "-"%char else c) = x -> c = x.
Proof. intros Hx. destruct (Ascii.eqb c " "); congruence. Qed.

(** Only ["none"] is normalized to ["none"]. *)
Lemma lower_none_clean s : lower s = "none" <-> clean s = "none".
Proof.
  unfold clean. split; [by intros -> |].
  destruct (lower s) as [|c1 [|c2 [|c3 [|c4 [|c5 t]]]]]; simpl; try discriminate.
  intros [= H1 H2 H3 H4].
  apply unhyphen_char in H1, H2, H3, H4; try discriminate. by subst.
Qed.

(** The guard on the state looks at the normalized state only. *)
Lemma state_omitted_clean s :
  state_omitted s = negb (truthy (clean s)) || String.eqb (clean s) "none".
Proof.
  unfold state_omitted. rewrite truthy_clean. f_equal.
  destruct (String.eqb_spec (lower s) "none") as [Hl|Hl];
    destruct (String.eqb_spec (clean s) "none") as [Hc|Hc]; try reflexivity.
  - by apply lower_none_clean in Hl.
  - by apply lower_none_clean in Hc.
Qed.

Lemma format_url_of_clean country state city country' state' city' :
  clean country = clean country' ->
  clean state = clean state' ->
  clean city = clean city' ->
  _format_url country state city = _format_url country' state' city'.
Proof.
  intros Hc Hs Hy. rewrite !format_url_shape, !state_omitted_clean.
  by rewrite Hc, Hs, Hy.
Qed.

(** X1.  The URL depends on the inputs through their normalized forms only:
    locations that differ in the case of their letters, or in a hyphen
    where the other has a space, get the same URL. *)
Theorem format_url_normalized country state city country' state' city' :
  replace " " "-" (lower country) = replace " " "-" (lower country') ->
  replace " " "-" (lower state) = replace " " "-" (lower state') ->
  replace " " "-" (lower city) = replace " " "-" (lower city') ->
  _format_url country state city = _format_url country' state' city'.
Proof. apply format_url_of_clean. Qed.

(** X2.  Whatever the inputs, the URL has no space and no upper-case
    letter in it. *)
Theorem format_url_is_clean country state city :
  is_clean (_format_url country state city) = true.
Proof.
  rewrite format_url_shape. destruct (state_omitted state);
    rewrite ?is_clean_app; simpl; rewrite ?is_clean_app; simpl;
    by rewrite ?is_clean_clean.
Qed.

(** X3.  On inputs without ['/'], equal URLs come from equal normalized
    locations: the countries and the cities agree after normalization, the
    state is left out of both or of neither, and when it is not left out the
    states agree after normalization. *)
Theorem format_url_injective country state city country' state' city' :
  has_char "/" country = false -> has_char "/" state = false ->
  has_char "/" city = false ->
  has_char "/" country' = false -> has_char "/" state' = false ->
  has_char "/" city' = false ->
  _format_url country state city = _format_url country' state' city' ->
  clean country = clean country'
  /\ clean city = clean city'
  /\ state_omitted state = state_omitted state'
  /\ (state_omitted state = false -> clean state = clean state').
Proof.
  intros Hc Hs Hy Hc' Hs' Hy' Hurl.
  apply (f_equal path_segments) in Hurl.
  rewrite (format_url_segments _ _ _ Hc Hs Hy),
    (format_url_segments _ _ _ Hc' Hs' Hy') in Hurl.
  destruct (state_omitted state), (state_omitted state');
    injection Hurl as H1 H2 H3 || injection Hurl as H1 H2 || discriminate Hurl;
    repeat split; try done.
Qed.

(** X4.  A ['/'] in the country is not told apart from the separator: the
    country [country/state] with an empty state gets the URL of the country
    [country] with the state [state]. *)
Theorem format_url_slash_ambiguous country state city :
  state_omitted state = false ->
  _format_url (country +:+ "/" +:+ state) EmptyString city
    = _format_url country state city.
Proof.
  intros Hs. rewrite !format_url_shape, Hs.
  change (state_omitted EmptyString) with true. cbv iota.
  change (country +:+ "/" +:+ state) with (country +:+ String "/" state).
  rewrite clean_slash.
  f_equal. by rewrite !append_assoc.
Qed.

(** X5.  The state is not trimmed: a state with a space in it, a blank
    one included, is never taken as left out, and makes a segment of its
    own with a hyphen for every space. *)
Theorem format_url_state_with_space country state city :
  has_char " " state = true ->
  _format_url country state city
    = "https://www.aqi.in/dashboard/" +:+ replace " " "-" (lower country)
        +:+ "/" +:+ replace " " "-" (lower state)
        +:+ "/" +:+ replace " " "-" (lower city).
Proof.
  intros Hsp.
  assert (Hs : state_omitted state = false).
  { apply state_omitted_false. split.
    - by intros ->.
    - intros Hnone. rewrite <- has_space_lower, Hnone in Hsp. discriminate. }
  unfold _format_url. by rewrite Hs.
Qed.

End FormatterFurther.

Lemma format_url_normalized_witness :
  _format_url "United States" "NONE" "New York"
    = _format_url "united-states" "none" "new-york".
Proof.
  exact (format_url_normalized "United States" "NONE" "New York"
           "united-states" "none" "new-york" eq_refl eq_refl eq_refl).
Defined.

Lemma format_url_injective_witness :
  clean "India" = clean "india"
  /\ clean "Mumbai" = clean "MUMBAI"
  /\ state_omitted "Maharashtra" = state_omitted "maharashtra"
  /\ (state_omitted "Maharashtra" = false -> clean "Maharashtra" = clean "maharashtra").
Proof.
  exact (format_url_injective "India" "Maharashtra" "Mumbai"
           "india" "maharashtra" "MUMBAI"
           eq_refl eq_refl eq_refl eq_refl eq_refl eq_refl eq_refl).
Defined.

Lemma format_url_slash_ambiguous_witness :
  _format_url "India/Maharashtra" "" "Mumbai"
    = _format_url "India" "Maharashtra" "Mumbai".
Proof.
  exact (format_url_slash_ambiguous "India" "Maharashtra" "Mumbai" eq_refl).
Defined.

Lemma format_url_state_with_space_witness :
  _format_url "India" " " "Delhi" = "https://www.aqi.in/dashboard/india/-/delhi".
Proof.
  exact (format_url_state_with_space "India" " " "Delhi" eq_refl).
Defined.

(** ** The metrics fetcher, further *)

Section FetcherFurther.
Context {L : CaseMapping} {V : Validation}.

(** The fallback pair of an exception that leaves the [try] block. *)
Lemma fetch_fallback self city state country e :
  fetch_try self city state country = Raise e ->
  fetch_aqi_data self city state country
    = (zero_metrics, "Error fetching AQI data: " +:+ exn_msg e).
Proof. unfold fetch_aqi_data. by intros ->. Qed.

(** The [try] block on a response of the declared types that has its wind
    speed. *)
Lemma fetch_try_typed self city state country r b d s x w :
  extract_call self (_format_url country state city) = Ret (VDict r) ->
  r !! "success" = Some (VBool b) ->
  r !! "data" = Some (VDict d) ->
  r !! "status" = Some (VStr s) ->
  r !! "expiresAt" = Some (VStr x) ->
  map_Forall (fun _ v => is_Some (as_float v)) d ->
  d !! "wind_speed" = Some w ->
  fetch_try self city state country
    = if b
      then Ret (PFloat <$> omap as_float d,
                "Accessing URL: " +:+ _format_url country state city)
      else Raise (Exn "ValueError" ("Failed to fetch AQI data: " +:+ s)).
Proof.
  intros Hcall Hb Hr Hs Hx Hall Hw.
  assert (Hnone : is_None w = false).
  { destruct (Hall _ _ Hw) as [f Hf]. by destruct w. }
  unfold fetch_try. rewrite Hcall. simpl. unfold dict_getitem.
  rewrite Hr. simpl. rewrite Hw. simpl. rewrite Hnone.
  rewrite (validate_typed r b d s x Hb Hr Hs Hx Hall). simpl.
  by destruct b.
Qed.

(** X6.  A response that reports success, has fields of the declared types
    and float metrics with a wind speed among them is handed back as it is:
    the mapping returned holds every reported metric with its reported
    value, and the message names the URL without the wildcard. *)
Theorem fetch_typed_success self city state country r d s x w :
  extract_call self (_format_url country state city) = Ret (VDict r) ->
  r !! "success" = Some (VBool true) ->
  r !! "data" = Some (VDict d) ->
  r !! "status" = Some (VStr s) ->
  r !! "expiresAt" = Some (VStr x) ->
  map_Forall (fun _ v => is_Some (as_float v)) d ->
  d !! "wind_speed" = Some w ->
  exists m,
    fetch_aqi_data self city state country
      = (m, "Accessing URL: " +:+ _format_url country state city)
    /\ dom m = dom d
    /\ forall k y, d !! k = Some (VFloat y) <-> m !! k = Some (PFloat y).
Proof.
  intros Hcall Hb Hr Hs Hx Hall Hw.
  exists (PFloat <$> omap as_float d). split; [| split].
  - unfold fetch_aqi_data.
    by rewrite (fetch_try_typed _ _ _ _ r true d s x w).
  - rewrite dom_fmap_L. by apply dom_omap_as_float.
  - intros k y. rewrite lookup_fmap, lookup_omap.
    destruct (d !! k) as [v|] eqn:Hk; simpl; [| split; discriminate].
    destruct (Hall _ _ Hk) as [f Hf]. destruct v; try discriminate.
    simpl. split; congruence.
Qed.

(** X7.  A response of the declared types that reports failure and has its
    wind speed yields the fallback, and the message carries the reported
    status behind both prefixes. *)
Theorem fetch_unsuccessful_status self city state country r d s x w :
  extract_call self (_format_url country state city) = Ret (VDict r) ->
  r !! "success" = Some (VBool false) ->
  r !! "data" = Some (VDict d) ->
  r !! "status" = Some (VStr s) ->
  r !! "expiresAt" = Some (VStr x) ->
  map_Forall (fun _ v => is_Some (as_float v)) d ->
  d !! "wind_speed" = Some w ->
  fetch_aqi_data self city state country
    = (zero_metrics,
       "Error fetching AQI data: Failed to fetch AQI data: " +:+ s).
Proof.
  intros Hcall Hb Hr Hs Hx Hall Hw.
  rewrite (fetch_fallback _ _ _ _
             (Exn "ValueError" ("Failed to fetch AQI data: " +:+ s))).
  - simpl. by rewrite <- append_assoc.
  - by rewrite (fetch_try_typed _ _ _ _ r false d s x w).
Qed.

(** X8.  The wind speed is looked up before the [success] field is read: a
    response without a [data] item yields the fallback with the name of the
    key as message, whatever it reports as [success] and [status]. *)
Theorem fetch_without_data self city state country r :
  extract_call self (_format_url country state city) = Ret (VDict r) ->
  r !! "data" = None ->
  fetch_aqi_data self city state country
    = (zero_metrics, "Error fetching AQI data: 'data'").
Proof.
  intros Hcall Hr. apply (fetch_fallback _ _ _ _ (KeyError "data")).
  unfold fetch_try. rewrite Hcall. simpl. unfold dict_getitem. by rewrite Hr.
Qed.

(** X9.  A response that is not a dictionary, or whose [data] is not one
    ([None], for instance), yields the fallback with the message of the
    [TypeError] that the subscription raises. *)
Theorem fetch_not_a_dict self city state country v e :
  as_dict v = Raise e ->
  extract_call self (_format_url country state city) = Ret v
  \/ (exists r,
        extract_call self (_format_url country state city) = Ret (VDict r)
        /\ r !! "data" = Some v) ->
  fetch_aqi_data self city state country
    = (zero_metrics, "Error fetching AQI data: " +:+ exn_msg e).
Proof.
  intros Hv Hcall. apply fetch_fallback. unfold fetch_try.
  destruct Hcall as [-> | (r & -> & Hr)]; simpl.
  - by rewrite Hv.
  - unfold dict_getitem. rewrite Hr. simpl. by rewrite Hv.
Qed.

(** X10.  The mapping returned is never a mix: it is the fallback of
    integer zeros, or every value in it is a float. *)
Theorem fetch_values self city state country :
  let m := (fetch_aqi_data self city state country).1 in
  m = zero_metrics \/ forall k v, m !! k = Some v -> exists y, v = PFloat y.
Proof.
  destruct (fetch_aqi_data_cases self city state country)
    as [(e & _ & ->)|(m & msg & Htry & ->)]; simpl; [by left | right].
  apply fetch_try_Ret in Htry as (r & d & w & a & _ & _ & _ & _ & _ & -> & _).
  intros k v. rewrite lookup_fmap. destruct (_ !! k); simpl; [| discriminate].
  intros [= <-]. by eexists.
Qed.

End FetcherFurther.

Lemma reading_floats y :
  map_Forall (fun _ v => is_Some (as_float v)) (reading (VFloat y)).
Proof.
  apply map_Forall_lookup. intros k v.
  unfold reading. rewrite !lookup_insert, lookup_empty.
  repeat case_decide; intros [= <-]; by eexists.
Qed.

Lemma fetch_typed_success_witness :
  exists m,
    fetch_aqi_data (answering (response_of true (reading (VFloat (float_of_Z 9)))))
      "Mumbai" "Maharashtra" "India"
      = (m, "Accessing URL: " +:+ _format_url "India" "Maharashtra" "Mumbai")
    /\ dom m = dom (reading (VFloat (float_of_Z 9)))
    /\ forall k y,
         reading (VFloat (float_of_Z 9)) !! k = Some (VFloat y)
         <-> m !! k = Some (PFloat y).
Proof.
  apply (fetch_typed_success (V := exact_validation)
           (answering (response_of true (reading (VFloat (float_of_Z 9)))))
           "Mumbai" "Maharashtra" "India" _ (reading (VFloat (float_of_Z 9)))
           "completed" "2025-01-01T00:00:00.000Z" (VFloat (float_of_Z 9))
           eq_refl eq_refl eq_refl eq_refl eq_refl (reading_floats _) eq_refl).
Defined.

Lemma fetch_unsuccessful_status_witness :
  fetch_aqi_data (answering (response_of false (reading (VFloat (float_of_Z 9)))))
    "Mumbai" "Maharashtra" "India"
  = (zero_metrics,
     "Error fetching AQI data: Failed to fetch AQI data: completed").
Proof.
  apply (fetch_unsuccessful_status (V := exact_validation)
           (answering (response_of false (reading (VFloat (float_of_Z 9)))))
           "Mumbai" "Maharashtra" "India" _ (reading (VFloat (float_of_Z 9)))
           "completed" "2025-01-01T00:00:00.000Z" (VFloat (float_of_Z 9))
           eq_refl eq_refl eq_refl eq_refl eq_refl (reading_floats _) eq_refl).
Defined.

Lemma fetch_without_data_witness :
  fetch_aqi_data
    (answering (VDict (<["success" := VBool false]>
                       (<["status" := VStr "failed"]> ∅))))
    "Delhi" "" "India"
  = (zero_metrics, "Error fetching AQI data: 'data'").
Proof.
  apply (fetch_without_data (V := exact_validation)
           (answering (VDict (<["success" := VBool false]>
                              (<["status" := VStr "failed"]> ∅))))
           "Delhi" "" "India" _ eq_refl).
  reflexivity.
Defined.

Lemma fetch_not_a_dict_witness :
  fetch_aqi_data
    (answering (VDict (<["success" := VBool false]> (<["data" := VNone]> ∅))))
    "Delhi" "" "India"
  = (zero_metrics,
     "Error fetching AQI data: 'NoneType' object is not subscriptable").
Proof.
  apply (fetch_not_a_dict (V := exact_validation)
           (answering (VDict (<["success" := VBool false]> (<["data" := VNone]> ∅))))
           "Delhi" "" "India" VNone
           (TypeError "'NoneType' object is not subscriptable") eq_refl).
  right. eexists. split; reflexivity.
Defined.

(** ** The prompt and the display structure, further *)

Lemma metric_Raise (aqi_data : gmap string pynum) k :
  aqi_data !! k = None -> metric aqi_data k = Raise (KeyError k).
Proof. unfold metric. by intros ->. Qed.

(** One subscription of the sequence: the key is the missing one, or it is
    there and the sequence goes on. *)
Ltac first_missing_step pre Hord Hpre Hk :=
  destruct pre as [|? pre]; simpl in Hord;
  [ injection Hord as <- _; rewrite (metric_Raise _ _ Hk); reflexivity
  | injection Hord as <- Hord;
    let Hv := fresh "Hv" in
    apply Forall_cons in Hpre as [[? Hv] Hpre];
    rewrite (metric_Ret _ _ _ Hv); simpl ].

Lemma create_prompt_first_missing (aqi_data : gmap string pynum) user_input
    pre k post :
  metric_order = pre ++ k :: post ->
  Forall (fun k' => is_Some (aqi_data !! k')) pre ->
  aqi_data !! k = None ->
  _create_prompt aqi_data user_input = Raise (KeyError k).
Proof.
  intros Hord Hpre Hk. unfold metric_order in Hord. unfold _create_prompt.
  do 7 (first_missing_step pre Hord Hpre Hk).
  destruct pre; discriminate Hord.
Qed.

Lemma display_fields_first_missing (aqi_data : gmap string pynum) pre k post :
  metric_order = pre ++ k :: post ->
  Forall (fun k' => is_Some (aqi_data !! k')) pre ->
  aqi_data !! k = None ->
  display_fields aqi_data = Raise (KeyError k).
Proof.
  intros Hord Hpre Hk. unfold metric_order in Hord. unfold display_fields.
  do 7 (first_missing_step pre Hord Hpre Hk).
  destruct pre; discriminate Hord.
Qed.

(** X11.  The metrics are subscripted in one order, by the prompt and by
    the display structure alike: aqi, pm25, pm10, co, temperature, humidity,
    wind_speed.  The first key of that order that the mapping lacks is the
    one the [KeyError] names. *)
Theorem first_missing_metric (aqi_data : gmap string pynum) user_input pre k post :
  [ "aqi"; "pm25"; "pm10"; "co"; "temperature"; "humidity"; "wind_speed" ]
    = pre ++ k :: post ->
  Forall (fun k' => is_Some (aqi_data !! k')) pre ->
  aqi_data !! k = None ->
  _create_prompt aqi_data user_input = Raise (Exn "KeyError" ("'" +:+ k +:+ "'"))
  /\ display_fields aqi_data = Raise (Exn "KeyError" ("'" +:+ k +:+ "'")).
Proof.
  intros Hord Hpre Hk. split.
  - by apply (create_prompt_first_missing _ _ pre k post).
  - by apply (display_fields_first_missing _ pre k post).
Qed.

Lemma first_missing_metric_witness :
  _create_prompt (delete "co" zero_metrics)
    (UserInput.make "Delhi" "" "India" None "outdoor yoga session")
    = Raise (Exn "KeyError" "'co'")
  /\ display_fields (delete "co" zero_metrics) = Raise (Exn "KeyError" "'co'").
Proof.
  apply (first_missing_metric (delete "co" zero_metrics)
           (UserInput.make "Delhi" "" "India" None "outdoor yoga session")
           ["aqi"; "pm25"; "pm10"] "co" ["temperature"; "humidity"; "wind_speed"]).
  - reflexivity.
  - repeat constructor; by eexists.
  - reflexivity.
Defined.

Lemma create_prompt_Ret_keys (aqi_data : gmap string pynum) user_input text :
  _create_prompt aqi_data user_input = Ret text -> metric_keys ⊆ dom aqi_data.
Proof.
  unfold _create_prompt, metric.
  destruct (aqi_data !! "aqi") eqn:?; [simpl | discriminate].
  destruct (aqi_data !! "pm25") eqn:?; [simpl | discriminate].
  destruct (aqi_data !! "pm10") eqn:?; [simpl | discriminate].
  destruct (aqi_data !! "co") eqn:?; [simpl | discriminate].
  destruct (aqi_data !! "temperature") eqn:?; [simpl | discriminate].
  destruct (aqi_data !! "humidity") eqn:?; [simpl | discriminate].
  destruct (aqi_data !! "wind_speed") eqn:?; [simpl | discriminate].
  intros _ k Hk. apply elem_of_dom. unfold metric_keys in Hk.
  repeat (apply elem_of_union in Hk as [Hk|Hk]);
    apply elem_of_singleton in Hk as ->; by eexists.
Qed.

Lemma display_fields_Ret_keys (aqi_data : gmap string pynum) fields :
  display_fields aqi_data = Ret fields -> metric_keys ⊆ dom aqi_data.
Proof.
  unfold display_fields, metric.
  destruct (aqi_data !! "aqi") eqn:?; [simpl | discriminate].
  destruct (aqi_data !! "pm25") eqn:?; [simpl | discriminate].
  destruct (aqi_data !! "pm10") eqn:?; [simpl | discriminate].
  destruct (aqi_data !! "co") eqn:?; [simpl | discriminate].
  destruct (aqi_data !! "temperature") eqn:?; [simpl | discriminate].
  destruct (aqi_data !! "humidity") eqn:?; [simpl | discriminate].
  destruct (aqi_data !! "wind_speed") eqn:?; [simpl | discriminate].
  intros _ k Hk. apply elem_of_dom. unfold metric_keys in Hk.
  repeat (apply elem_of_union in Hk as [Hk|Hk]);
    apply elem_of_singleton in Hk as ->; by eexists.
Qed.

Lemma seven_metrics (aqi_data : gmap string pynum) :
  metric_keys ⊆ dom aqi_data ->
  exists aqi pm25 pm10 co temperature humidity wind_speed,
    aqi_data !! "aqi" = Some aqi /\ aqi_data !! "pm25" = Some pm25
    /\ aqi_data !! "pm10" = Some pm10 /\ aqi_data !! "co" = Some co
    /\ aqi_data !! "temperature" = Some temperature
    /\ aqi_data !! "humidity" = Some humidity
    /\ aqi_data !! "wind_speed" = Some wind_speed.
Proof.
  intros Hkeys.
  assert (Hin : forall k, k ∈ metric_keys -> is_Some (aqi_data !! k))
    by (intros k Hk; by apply elem_of_dom, Hkeys).
  unfold metric_keys in Hin.
  destruct (Hin "aqi") as [aqi ?]; [set_solver |].
  destruct (Hin "pm25") as [pm25 ?]; [set_solver |].
  destruct (Hin "pm10") as [pm10 ?]; [set_solver |].
  destruct (Hin "co") as [co ?]; [set_solver |].
  destruct (Hin "temperature") as [temperature ?]; [set_solver |].
  destruct (Hin "humidity") as [humidity ?]; [set_solver |].
  destruct (Hin "wind_speed") as [wind_speed ?]; [set_solver |].
  eauto 15.
Qed.

Lemma display_fields_Ret (aqi_data : gmap string pynum)
    aqi pm25 pm10 co temperature humidity wind_speed :
  aqi_data !! "aqi" = Some aqi -> aqi_data !! "pm25" = Some pm25 ->
  aqi_data !! "pm10" = Some pm10 -> aqi_data !! "co" = Some co ->
  aqi_data !! "temperature" = Some temperature ->
  aqi_data !! "humidity" = Some humidity ->
  aqi_data !! "wind_speed" = Some wind_speed ->
  display_fields aqi_data
    = Ret [ ("Air Quality Index (AQI)", JNum aqi);
            ("PM2.5", JStr (str_num pm25 +:+ " µg/m³"));
            ("PM10", JStr (str_num pm10 +:+ " µg/m³"));
            ("Carbon Monoxide (CO)", JStr (str_num co +:+ " ppb"));
            ("Temperature", JStr (str_num temperature +:+ "°C"));
            ("Humidity", JStr (str_num humidity +:+ "%"));
            ("Wind Speed", JStr (str_num wind_speed +:+ " km/h")) ].
Proof.
  intros Haqi Hpm25 Hpm10 Hco Ht Hh Hw. unfold display_fields.
  by rewrite (metric_Ret _ _ _ Haqi), (metric_Ret _ _ _ Hpm25),
    (metric_Ret _ _ _ Hpm10), (metric_Ret _ _ _ Hco), (metric_Ret _ _ _ Ht),
    (metric_Ret _ _ _ Hh), (metric_Ret _ _ _ Hw).
Qed.

Lemma create_prompt_Ret (aqi_data : gmap string pynum) user_input :
  metric_keys ⊆ dom aqi_data ->
  exists text, _create_prompt aqi_data user_input = Ret text.
Proof.
  intros (aqi & pm25 & pm10 & co & t & h & w
          & Haqi & Hpm25 & Hpm10 & Hco & Ht & Hh & Hw)%seven_metrics.
  unfold _create_prompt.
  rewrite (metric_Ret _ _ _ Haqi), (metric_Ret _ _ _ Hpm25),
    (metric_Ret _ _ _ Hpm10), (metric_Ret _ _ _ Hco), (metric_Ret _ _ _ Ht),
    (metric_Ret _ _ _ Hh), (metric_Ret _ _ _ Hw).
  by eexists.
Qed.

(** X12.  The prompt is built, and the display structure too, exactly when
    the mapping has the seven metric keys; further keys are ignored. *)
Theorem prompt_and_display_need_seven_keys (aqi_data : gmap string pynum) user_input :
  ((exists text, _create_prompt aqi_data user_input = Ret text)
   <-> metric_keys ⊆ dom aqi_data)
  /\ ((exists fields, display_fields aqi_data = Ret fields)
      <-> metric_keys ⊆ dom aqi_data).
Proof.
  split; split.
  - intros [text Htext]. by eapply create_prompt_Ret_keys.
  - apply create_prompt_Ret.
  - intros [fields Hfields]. by eapply display_fields_Ret_keys.
  - intros (aqi & pm25 & pm10 & co & t & h & w
            & Haqi & Hpm25 & Hpm10 & Hco & Ht & Hh & Hw)%seven_metrics.
    eexists. by apply (display_fields_Ret _ aqi pm25 pm10 co t h w).
Qed.

(** X13.  The prompt does not tell apart medical conditions that are
    [None], empty, or the word "None": the three give the same prompt. *)
Theorem prompt_medical_conditions_collapse (aqi_data : gmap string pynum)
    city state country planned_activity mc mc' :
  mc = None \/ mc = Some EmptyString \/ mc = Some "None" ->
  mc' = None \/ mc' = Some EmptyString \/ mc' = Some "None" ->
  _create_prompt aqi_data (UserInput.make city state country mc planned_activity)
    = _create_prompt aqi_data (UserInput.make city state country mc' planned_activity).
Proof.
  intros Hmc Hmc'.
  assert (Hnone : or_None mc = "None")
    by (destruct Hmc as [-> | [-> | ->]]; reflexivity).
  assert (Hnone' : or_None mc' = "None")
    by (destruct Hmc' as [-> | [-> | ->]]; reflexivity).
  unfold _create_prompt. simpl. by rewrite Hnone, Hnone'.
Qed.

Lemma prompt_medical_conditions_collapse_witness :
  _create_prompt zero_metrics
    (UserInput.make "Delhi" "" "India" None "outdoor yoga session")
  = _create_prompt zero_metrics
      (UserInput.make "Delhi" "" "India" (Some "None") "outdoor yoga session").
Proof.
  apply (prompt_medical_conditions_collapse zero_metrics "Delhi" "" "India"
           "outdoor yoga session" None (Some "None")).
  - left. reflexivity.
  - right. right. reflexivity.
Defined.

(** ** The recommendation generator *)

Lemma get_recommendations_Ret self (aqi_data : gmap string pynum) user_input text :
  get_recommendations self aqi_data user_input = Ret text <->
  exists prompt rest,
    _create_prompt aqi_data user_input = Ret prompt
    /\ chat_completions_create (client self)
         [ {| role := "user"; content := prompt |} ] "llama-3.3-70b-versatile"
       = Ret {| choices := text :: rest |}.
Proof.
  unfold get_recommendations. split.
  - destruct (_create_prompt _ _) as [prompt|]; [simpl | discriminate].
    destruct (chat_completions_create _ _ _) as [[[|first rest]]|] eqn:Hchat;
      simpl; try discriminate.
    intros [= ->]. by exists prompt, rest.
  - intros (prompt & rest & -> & Hchat). simpl. by rewrite Hchat.
Qed.

(** X14.  The generator returns a text exactly when the prompt was built
    and the service answered the one user message that carries it, sent to
    the model llama-3.3-70b-versatile, with at least one choice; the text
    is that of the first choice, the others are dropped. *)
Theorem get_recommendations_first_choice self (aqi_data : gmap string pynum)
    user_input text :
  get_recommendations self aqi_data user_input = Ret text <->
  exists prompt rest,
    _create_prompt aqi_data user_input = Ret prompt
    /\ chat_completions_create (client self)
         [ {| role := "user"; content := prompt |} ] "llama-3.3-70b-versatile"
       = Ret {| choices := text :: rest |}.
Proof. apply get_recommendations_Ret. Qed.

(** X15.  An answer without choices makes the generator raise
    [IndexError]; an exception of the service goes through unchanged. *)
Theorem get_recommendations_no_choice self (aqi_data : gmap string pynum)
    user_input prompt :
  _create_prompt aqi_data user_input = Ret prompt ->
  (chat_completions_create (client self)
     [ {| role := "user"; content := prompt |} ] "llama-3.3-70b-versatile"
   = Ret {| choices := [] |} ->
   get_recommendations self aqi_data user_input
     = Raise (Exn "IndexError" "list index out of range"))
  /\ (forall e,
        chat_completions_create (client self)
          [ {| role := "user"; content := prompt |} ] "llama-3.3-70b-versatile"
        = Raise e ->
        get_recommendations self aqi_data user_input = Raise e).
Proof.
  intros Hprompt. unfold get_recommendations. rewrite Hprompt. simpl.
  split; [intros -> | intros e ->]; reflexivity.
Qed.

Lemma get_recommendations_no_choice_witness :
  get_recommendations
    {| client := {| chat_completions_create := fun _ _ => Ret {| choices := [] |} |} |}
    zero_metrics (UserInput.make "Delhi" "" "India" None "outdoor yoga session")
  = Raise (Exn "IndexError" "list index out of range").
Proof.
  destruct (create_prompt_Ret zero_metrics
              (UserInput.make "Delhi" "" "India" None "outdoor yoga session"))
    as [prompt Hprompt]; [by rewrite dom_zero_metrics |].
  apply (proj1 (get_recommendations_no_choice
                  {| client := {| chat_completions_create :=
                                    fun _ _ => Ret {| choices := [] |} |} |}
                  zero_metrics
                  (UserInput.make "Delhi" "" "India" None "outdoor yoga session")
                  prompt Hprompt)).
  reflexivity.
Defined.

(** ** The orchestration function, further *)

Section OrchestrationFurther.
Context {L : CaseMapping} {V : Validation}.

(** Past the two constructors, the [try] block formats what the fetcher
    returned, asks the generator, and returns. *)
Lemma analyze_try_run P city state country medical_conditions planned_activity
    aqi_analyzer health_agent :
  AQIAnalyzer_init P = Ret aqi_analyzer ->
  HealthRecommendationAgent_init P = Ret health_agent ->
  analyze_try P city state country medical_conditions planned_activity
    = (aqi_json ← dumps_indent2
                   <$> display_fields (fetch_aqi_data aqi_analyzer city state country).1;
       recommendations ←
         get_recommendations health_agent
           (fetch_aqi_data aqi_analyzer city state country).1
           (UserInput.make city state country (Some medical_conditions)
              planned_activity);
       mret (aqi_json, recommendations,
             (fetch_aqi_data aqi_analyzer city state country).2, warning_msg)).
Proof.
  intros Ha Hg. unfold analyze_try. rewrite Ha, Hg. simpl.
  by destruct (fetch_aqi_data aqi_analyzer city state country).
Qed.

Lemma analyze_raises P city state country medical_conditions planned_activity e :
  analyze_try P city state country medical_conditions planned_activity = Raise e ->
  analyze_conditions P city state country medical_conditions planned_activity
    = (EmptyString, "Analysis failed", "Error occurred: " +:+ exn_msg e, EmptyString).
Proof. unfold analyze_conditions. by intros ->. Qed.

(** X16.  A run in which nothing fails: both constructors succeed, the
    extraction answers with success, fields of the declared types and the
    seven metrics as floats, and the generation service answers the prompt
    with a first choice [text].  The function returns the JSON text of the
    seven reported values with their units, [text] unchanged, the message
    that names the URL, and the fixed warning. *)
Theorem analyze_success P city state country medical_conditions planned_activity
    aqi_analyzer health_agent r d s x
    aqi pm25 pm10 co temperature humidity wind_speed prompt text rest :
  AQIAnalyzer_init P = Ret aqi_analyzer ->
  HealthRecommendationAgent_init P = Ret health_agent ->
  extract_call aqi_analyzer (_format_url country state city) = Ret (VDict r) ->
  r !! "success" = Some (VBool true) ->
  r !! "data" = Some (VDict d) ->
  r !! "status" = Some (VStr s) ->
  r !! "expiresAt" = Some (VStr x) ->
  map_Forall (fun _ v => is_Some (as_float v)) d ->
  d !! "aqi" = Some (VFloat aqi) -> d !! "pm25" = Some (VFloat pm25) ->
  d !! "pm10" = Some (VFloat pm10) -> d !! "co" = Some (VFloat co) ->
  d !! "temperature" = Some (VFloat temperature) ->
  d !! "humidity" = Some (VFloat humidity) ->
  d !! "wind_speed" = Some (VFloat wind_speed) ->
  _create_prompt (PFloat <$> omap as_float d)
    (UserInput.make city state country (Some medical_conditions) planned_activity)
    = Ret prompt ->
  chat_completions_create (client health_agent)
    [ {| role := "user"; content := prompt |} ] "llama-3.3-70b-versatile"
    = Ret {| choices := text :: rest |} ->
  analyze_conditions P city state country medical_conditions planned_activity
    = (dumps_indent2
         [ ("Air Quality Index (AQI)", JNum (PFloat aqi));
           ("PM2.5", JStr (str_float pm25 +:+ " µg/m³"));
           ("PM10", JStr (str_float pm10 +:+ " µg/m³"));
           ("Carbon Monoxide (CO)", JStr (str_float co +:+ " ppb"));
           ("Temperature", JStr (str_float temperature +:+ "°C"));
           ("Humidity", JStr (str_float humidity +:+ "%"));
           ("Wind Speed", JStr (str_float wind_speed +:+ " km/h")) ],
       text,
       "Accessing URL: " +:+ _format_url country state city,
       warning_msg).
Proof.
  intros Ha Hg Hcall Hok Hr Hs Hx Hall Haqi Hpm25 Hpm10 Hco Ht Hh Hw Hprompt Hchat.
  assert (Hfetch : fetch_aqi_data aqi_analyzer city state country
                   = (PFloat <$> omap as_float d,
                      "Accessing URL: " +:+ _format_url country state city)).
  { unfold fetch_aqi_data.
    by rewrite (fetch_try_typed _ _ _ _ r true d s x (VFloat wind_speed)). }
  assert (Hm : forall k y, d !! k = Some (VFloat y) ->
                 (PFloat <$> omap as_float d) !! k = Some (PFloat y)).
  { intros k y Hk. by rewrite lookup_fmap, lookup_omap, Hk. }
  unfold analyze_conditions.
  rewrite (analyze_try_run _ _ _ _ _ _ _ _ Ha Hg), Hfetch. simpl.
  rewrite (display_fields_Ret _ _ _ _ _ _ _ _
             (Hm _ _ Haqi) (Hm _ _ Hpm25) (Hm _ _ Hpm10) (Hm _ _ Hco)
             (Hm _ _ Ht) (Hm _ _ Hh) (Hm _ _ Hw)).
  simpl.
  assert (Hrec : get_recommendations health_agent (PFloat <$> omap as_float d)
                   (UserInput.make city state country (Some medical_conditions)
                      planned_activity) = Ret text)
    by (apply get_recommendations_Ret; eauto).
  by rewrite Hrec.
Qed.

(** X17.  A failed extraction does not fail the analysis.  When the [try]
    block of the fetcher raises and the generation service answers the
    prompt made of the zeros, the function returns the JSON text of the
    zeros, the recommendation drawn from them, the fetcher's error message
    as status, and the fixed warning. *)
Theorem analyze_after_failed_fetch P city state country medical_conditions
    planned_activity aqi_analyzer health_agent e prompt text rest :
  AQIAnalyzer_init P = Ret aqi_analyzer ->
  HealthRecommendationAgent_init P = Ret health_agent ->
  fetch_try aqi_analyzer city state country = Raise e ->
  _create_prompt zero_metrics
    (UserInput.make city state country (Some medical_conditions) planned_activity)
    = Ret prompt ->
  chat_completions_create (client health_agent)
    [ {| role := "user"; content := prompt |} ] "llama-3.3-70b-versatile"
    = Ret {| choices := text :: rest |} ->
  analyze_conditions P city state country medical_conditions planned_activity
    = (String.concat newline
         [ "{";
           "  " +:+ quote +:+ "Air Quality Index (AQI)" +:+ quote +:+ ": 0,";
           "  " +:+ quote +:+ "PM2.5" +:+ quote +:+ ": " +:+ quote
             +:+ "0 \u00b5g/m\u00b3" +:+ quote +:+ ",";
           "  " +:+ quote +:+ "PM10" +:+ quote +:+ ": " +:+ quote
             +:+ "0 \u00b5g/m\u00b3" +:+ quote +:+ ",";
           "  " +:+ quote +:+ "Carbon Monoxide (CO)" +:+ quote +:+ ": " +:+ quote
             +:+ "0 ppb" +:+ quote +:+ ",";
           "  " +:+ quote +:+ "Temperature" +:+ quote +:+ ": " +:+ quote
             +:+ "0\u00b0C" +:+ quote +:+ ",";
           "  " +:+ quote +:+ "Humidity" +:+ quote +:+ ": " +:+ quote
             +:+ "0%" +:+ quote +:+ ",";
           "  " +:+ quote +:+ "Wind Speed" +:+ quote +:+ ": " +:+ quote
             +:+ "0 km/h" +:+ quote;
           "}" ],
       text,
       "Error fetching AQI data: " +:+ exn_msg e,
       warning_msg).
Proof.
  intros Ha Hg Htry Hprompt Hchat.
  assert (Hfetch : fetch_aqi_data aqi_analyzer city state country
                   = (zero_metrics, "Error fetching AQI data: " +:+ exn_msg e))
    by (unfold fetch_aqi_data; by rewrite Htry).
  assert (Hrec : get_recommendations health_agent zero_metrics
                   (UserInput.make city state country (Some medical_conditions)
                      planned_activity) = Ret text)
    by (apply get_recommendations_Ret; eauto).
  unfold analyze_conditions.
  rewrite (analyze_try_run _ _ _ _ _ _ _ _ Ha Hg), Hfetch.
  cbn [fst snd]. rewrite Hrec. reflexivity.
Qed.

(** X18.  When the constructor of the extraction client raises, or that of
    the generation client after it, the function returns the failure tuple
    with the constructor's message; no service is called. *)
Theorem analyze_constructor_fails P city state country medical_conditions
    planned_activity e :
  FirecrawlApp_new P (getenv P "FIRE_CRAWL_API_KEY") = Raise e
  \/ (exists fc,
        FirecrawlApp_new P (getenv P "FIRE_CRAWL_API_KEY") = Ret fc
        /\ Groq_new P (getenv P "GROQ_API_KEY") = Raise e) ->
  analyze_conditions P city state country medical_conditions planned_activity
    = (EmptyString, "Analysis failed", "Error occurred: " +:+ exn_msg e, EmptyString).
Proof.
  intros Hnew. apply analyze_raises.
  unfold analyze_try, AQIAnalyzer_init, HealthRecommendationAgent_init.
  destruct Hnew as [-> | (fc & -> & ->)]; reflexivity.
Qed.

(** X19.  An extraction that succeeds without one of the metrics makes the
    whole analysis fail: the fetcher hands the incomplete mapping on, the
    display structure raises [KeyError] on the first missing key, and the
    function returns the failure tuple with that key as message; the
    generator is not reached. *)
Theorem analyze_missing_metric P city state country medical_conditions
    planned_activity aqi_analyzer health_agent r d s x w pre k post :
  AQIAnalyzer_init P = Ret aqi_analyzer ->
  HealthRecommendationAgent_init P = Ret health_agent ->
  extract_call aqi_analyzer (_format_url country state city) = Ret (VDict r) ->
  r !! "success" = Some (VBool true) ->
  r !! "data" = Some (VDict d) ->
  r !! "status" = Some (VStr s) ->
  r !! "expiresAt" = Some (VStr x) ->
  map_Forall (fun _ v => is_Some (as_float v)) d ->
  d !! "wind_speed" = Some w ->
  [ "aqi"; "pm25"; "pm10"; "co"; "temperature"; "humidity"; "wind_speed" ]
    = pre ++ k :: post ->
  Forall (fun k' => is_Some (d !! k')) pre ->
  d !! k = None ->
  analyze_conditions P city state country medical_conditions planned_activity
    = (EmptyString, "Analysis failed", "Error occurred: '" +:+ k +:+ "'",
       EmptyString).
Proof.
  intros Ha Hg Hcall Hok Hr Hs Hx Hall Hw Hord Hpre Hk.
  assert (Hfetch : fetch_aqi_data aqi_analyzer city state country
                   = (PFloat <$> omap as_float d,
                      "Accessing URL: " +:+ _format_url country state city)).
  { unfold fetch_aqi_data.
    by rewrite (fetch_try_typed _ _ _ _ r true d s x w). }
  rewrite (analyze_raises _ _ _ _ _ _ (KeyError k)); [reflexivity |].
  rewrite (analyze_try_run _ _ _ _ _ _ _ _ Ha Hg), Hfetch. cbn [fst snd].
  rewrite (display_fields_first_missing _ pre k post Hord); [reflexivity | |].
  - eapply Forall_impl; [exact Hpre |]. intros k' [v Hv].
    destruct (Hall _ _ Hv) as [y Hy].
    rewrite lookup_fmap, lookup_omap, Hv. simpl. rewrite Hy. by eexists.
  - by rewrite lookup_fmap, lookup_omap, Hk.
Qed.

(** X20.  The status line is always one of three kinds, and tells which
    way the run went: with the fixed warning it starts with "Accessing URL: "
    or with "Error fetching AQI data: "; otherwise it starts with
    "Error occurred: ", and the metrics are empty, the recommendation is
    "Analysis failed" and the warning is empty. *)
Theorem analyze_status_line P city state country medical_conditions planned_activity :
  let '(aqi_json, recommendations, info_msg, warning) :=
    analyze_conditions P city state country medical_conditions planned_activity in
  (warning = warning_msg
   /\ ((exists url, info_msg = "Accessing URL: " +:+ url)
       \/ (exists msg, info_msg = "Error fetching AQI data: " +:+ msg)))
  \/ (aqi_json = EmptyString /\ recommendations = "Analysis failed"
      /\ warning = EmptyString
      /\ exists msg, info_msg = "Error occurred: " +:+ msg).
Proof.
  unfold analyze_conditions.
  destruct (analyze_try _ _ _ _ _ _) as [[[[j rec] info] w]|e] eqn:Htry;
    [left | right; eauto 6].
  unfold analyze_try in Htry.
  destruct (AQIAnalyzer_init P) as [a|]; [simpl in Htry | discriminate].
  destruct (HealthRecommendationAgent_init P) as [g|]; [simpl in Htry | discriminate].
  destruct (fetch_aqi_data_cases a city state country)
    as [(e & _ & Hf)|(m & msg & Hret & Hf)]; rewrite Hf in Htry.
  - destruct (display_fields _); [simpl in Htry | discriminate].
    destruct (get_recommendations _ _ _); [simpl in Htry | discriminate].
    injection Htry as _ _ <- <-. eauto.
  - destruct (display_fields _); [simpl in Htry | discriminate].
    destruct (get_recommendations _ _ _); [simpl in Htry | discriminate].
    injection Htry as _ _ <- <-.
    apply fetch_try_Ret in Hret as (? & ? & ? & ? & _ & _ & _ & _ & _ & _ & ->).
    eauto.
Qed.

End OrchestrationFurther.

(** *** The orchestration function on concrete services *)

Lemma analyze_success_witness :
  exists aqi_json,
    analyze_conditions
      (platform_of (answering (response_of true (reading (VFloat (float_of_Z 9)))))
         (replying "Wear a mask."))
      "Mumbai" "Maharashtra" "India" "asthma" "morning walk for 30 minutes"
    = (aqi_json, "Wear a mask.",
       "Accessing URL: " +:+ _format_url "India" "Maharashtra" "Mumbai",
       warning_msg).
Proof.
  eexists.
  eapply (analyze_success (V := exact_validation)
            (platform_of
               (answering (response_of true (reading (VFloat (float_of_Z 9)))))
               (replying "Wear a mask."))
            "Mumbai" "Maharashtra" "India" "asthma" "morning walk for 30 minutes"
            (answering (response_of true (reading (VFloat (float_of_Z 9)))))
            {| client := replying "Wear a mask." |}
            _ (reading (VFloat (float_of_Z 9)))
            "completed" "2025-01-01T00:00:00.000Z");
    try reflexivity.
  apply reading_floats.
Defined.

Lemma analyze_after_failed_fetch_witness :
  exists aqi_json,
    analyze_conditions
      (platform_of (failing connection_error) (replying "Stay indoors."))
      "Delhi" "" "India" "" "outdoor yoga session"
    = (aqi_json, "Stay indoors.",
       "Error fetching AQI data: Connection refused", warning_msg).
Proof.
  eexists.
  eapply (analyze_after_failed_fetch (V := exact_validation)
            (platform_of (failing connection_error) (replying "Stay indoors."))
            "Delhi" "" "India" "" "outdoor yoga session"
            (failing connection_error) {| client := replying "Stay indoors." |}
            connection_error);
    reflexivity.
Defined.

Lemma analyze_constructor_fails_witness :
  analyze_conditions
    {| getenv := fun _ => None;
       FirecrawlApp_new := fun key =>
         match key with
         | Some _ => Ret (firecrawl (failing connection_error))
         | None => Raise (Exn "ValueError" "No API key provided")
         end;
       Groq_new := fun _ => Ret (replying "Stay indoors.") |}
    "Delhi" "" "India" "" "outdoor yoga session"
  = (EmptyString, "Analysis failed", "Error occurred: No API key provided",
     EmptyString).
Proof.
  apply (analyze_constructor_fails (V := exact_validation)
           {| getenv := fun _ => None;
              FirecrawlApp_new := fun key =>
                match key with
                | Some _ => Ret (firecrawl (failing connection_error))
                | None => Raise (Exn "ValueError" "No API key provided")
                end;
              Groq_new := fun _ => Ret (replying "Stay indoors.") |}
           "Delhi" "" "India" "" "outdoor yoga session"
           (Exn "ValueError" "No API key provided")).
  left. reflexivity.
Defined.

Lemma analyze_missing_metric_witness :
  analyze_conditions
    (platform_of
       (answering (response_of true (delete "co" (reading (VFloat (float_of_Z 9))))))
       (replying "Wear a mask."))
    "Mumbai" "Maharashtra" "India" "asthma" "morning walk for 30 minutes"
  = (EmptyString, "Analysis failed", "Error occurred: 'co'", EmptyString).
Proof.
  eapply (analyze_missing_metric (V := exact_validation)
           (platform_of
              (answering
                 (response_of true (delete "co" (reading (VFloat (float_of_Z 9))))))
              (replying "Wear a mask."))
           "Mumbai" "Maharashtra" "India" "asthma" "morning walk for 30 minutes"
           (answering
              (response_of true (delete "co" (reading (VFloat (float_of_Z 9))))))
           {| client := replying "Wear a mask." |}
           _ (delete "co" (reading (VFloat (float_of_Z 9))))
           "completed" "2025-01-01T00:00:00.000Z" (VFloat (float_of_Z 9))
           ["aqi"; "pm25"; "pm10"] "co" ["temperature"; "humidity"; "wind_speed"]);
    try reflexivity.
  - apply map_Forall_delete, reading_floats.
  - repeat constructor; by eexists.
Defined.

(** ** The JSON text is ASCII *)

Lemma ascii_only_app a b : ascii_only (a +:+ b) = ascii_only a && ascii_only b.
Proof.
  induction a as [|c a IH]; [reflexivity |].
  rewrite append_cons. simpl. rewrite IH. by rewrite andb_assoc.
Qed.

Lemma ascii_only_concat sep (l : list string) :
  ascii_only sep = true ->
  Forall (fun s => ascii_only s = true) l ->
  ascii_only (String.concat sep l) = true.
Proof.
  intros Hsep Hl. induction Hl as [|s l Hs Hl IH]; [reflexivity |].
  destruct l as [|s' l]; [exact Hs |].
  change (String.concat sep (s :: s' :: l))
    with (s +:+ sep +:+ String.concat sep (s' :: l)).
  by rewrite !ascii_only_app, Hs, Hsep, IH.
Qed.

Lemma ascii_only_substring n m s :
  ascii_only s = true -> ascii_only (substring n m s) = true.
Proof.
  revert n m. induction s as [|c s IH]; intros n m Hs.
  - by destruct n, m.
  - simpl in Hs. apply andb_prop in Hs as [Hc Hs].
    destruct n as [|n]; [destruct m as [|m]; [reflexivity |] |]; simpl.
    + by rewrite Hc, IH.
    + by apply IH.
Qed.

Lemma ascii_only_zeros n : ascii_only (zeros n) = true.
Proof. induction n as [|n IH]; [reflexivity | exact IH]. Qed.

Lemma ascii_only_uint d : ascii_only (NilEmpty.string_of_uint d) = true.
Proof. induction d; simpl; auto. Qed.

Lemma ascii_only_str_int z : ascii_only (str_int z) = true.
Proof.
  unfold str_int, NilZero.string_of_int, NilZero.string_of_uint.
  destruct (Z.to_int z) as [d|d]; destruct d; try reflexivity;
    try apply (ascii_only_uint (Decimal.D0 _));
    simpl; apply ascii_only_uint.
Qed.

Lemma ascii_only_repr_digits d k : ascii_only (repr_digits d k) = true.
Proof.
  unfold repr_digits.
  pose proof (ascii_only_str_int d) as Hd.
  pose proof (ascii_only_str_int (Z.abs (Z.of_nat (String.length (str_int d)) + k - 1)))
    as He.
  repeat case_match; subst;
    rewrite ?ascii_only_app, ?ascii_only_zeros, ?ascii_only_substring, ?He, ?Hd;
    simpl in *; rewrite ?ascii_only_app; simpl;
    repeat match goal with
           | H : _ && _ = true |- _ => apply andb_prop in H as [? ?]
           end;
    rewrite ?He; auto using andb_true_intro with bool;
    repeat (apply andb_true_intro; split); auto.
Qed.

Lemma ascii_only_str_num v : ascii_only (str_num v) = true.
Proof.
  destruct v as [z|[[]|[]| |[] m e]]; simpl; try reflexivity.
  - apply ascii_only_str_int.
  - destruct (shortest_decimal m e) as [d k].
    rewrite ascii_only_app. by rewrite ascii_only_repr_digits.
  - destruct (shortest_decimal m e) as [d k].
    rewrite ascii_only_app. by rewrite ascii_only_repr_digits.
Qed.

Lemma ascii_only_dumps_num v : ascii_only (dumps_num v) = true.
Proof.
  destruct v as [z|[[]|[]| |s m e]]; try reflexivity;
    apply (ascii_only_str_num (PInt z)) || apply (ascii_only_str_num (PFloat _)).
Qed.

Lemma hex_digit_ascii n :
  (n < 16)%N -> (N_of_ascii (hex_digit n) <? 128)%N = true.
Proof.
  intros Hn. unfold hex_digit.
  destruct (n <? 10)%N; rewrite N_ascii_embedding by lia; apply N.ltb_lt; lia.
Qed.

Lemma ascii_only_u_escape n : ascii_only (u_escape n) = true.
Proof.
  unfold u_escape. rewrite ascii_only_app. simpl.
  rewrite !hex_digit_ascii; [reflexivity | ..]; by apply N.mod_lt.
Qed.

Lemma ascii_only_escape n : ascii_only (escape_code_point n) = true.
Proof.
  unfold escape_code_point.
  repeat (case_match; [reflexivity |]).
  case_match eqn:Hrange.
  - apply andb_prop in Hrange as [_ Hle%N.leb_le]. simpl.
    rewrite N_ascii_embedding by lia.
    rewrite andb_true_r. apply N.ltb_lt. lia.
  - case_match; [apply ascii_only_u_escape |].
    by rewrite ascii_only_app, !ascii_only_u_escape.
Qed.

Lemma ascii_only_dumps_str s : ascii_only (dumps_str s) = true.
Proof.
  unfold dumps_str. rewrite !ascii_only_app. simpl. rewrite andb_true_r.
  apply ascii_only_concat; [reflexivity |].
  apply Forall_fmap, Forall_forall. intros n _. apply ascii_only_escape.
Qed.

Lemma ascii_only_dumps_indent2 (obj : list (string * jval)) :
  ascii_only (dumps_indent2 obj) = true.
Proof.
  unfold dumps_indent2. destruct obj as [|kv obj]; [reflexivity |].
  generalize (kv :: obj). clear kv obj. intros obj.
  rewrite !ascii_only_app.
  repeat (apply andb_true_intro; split); try reflexivity.
  apply ascii_only_concat; [reflexivity |].
  apply Forall_fmap, Forall_forall. intros [k v] _.
  cbn [fst snd compose]. rewrite !ascii_only_app, ascii_only_dumps_str.
  repeat (apply andb_true_intro; split); try reflexivity.
  destruct v; [apply ascii_only_dumps_num | apply ascii_only_dumps_str].
Qed.

Section JsonText.
Context {L : CaseMapping} {V : Validation}.

(** X21.  The metrics text that [analyze_conditions] returns is ASCII,
    whatever the metrics and the outcome of the run: the characters of the
    units that are outside ASCII are written as escapes. *)
Theorem analyze_json_ascii P city state country medical_conditions planned_activity :
  ascii_only
    (analyze_conditions P city state country medical_conditions planned_activity).1.1.1
  = true.
Proof.
  unfold analyze_conditions.
  destruct (analyze_try _ _ _ _ _ _) as [[[[j rec] info] w]|e] eqn:Htry;
    [| reflexivity].
  unfold analyze_try in Htry.
  destruct (AQIAnalyzer_init P) as [a|]; [simpl in Htry | discriminate].
  destruct (HealthRecommendationAgent_init P) as [g|]; [simpl in Htry | discriminate].
  destruct (fetch_aqi_data a city state country) as [m msg].
  destruct (display_fields m) as [fields|]; [simpl in Htry | discriminate].
  destruct (get_recommendations _ _ _); [simpl in Htry | discriminate].
  injection Htry as <- _ _ _. simpl. apply ascii_only_dumps_indent2.
Qed.

End JsonText.

(** ** Counting the path segments *)

Lemma length_split sep s : length (split sep s) = S (count_char sep s).
Proof.
  induction s as [|c s IH]; [reflexivity |]. simpl.
  destruct (Ascii.eqb c sep); simpl; [by rewrite IH |].
  destruct (split sep s); [discriminate IH | exact IH].
Qed.

Lemma count_char_app c a b :
  count_char c (a +:+ b) = (count_char c a + count_char c b)%nat.
Proof.
  induction a as [|x a IH]; [reflexivity |].
  rewrite append_cons. simpl. rewrite IH. lia.
Qed.

Section SegmentCount.
Context {L : CaseMapping}.

(** X22.  The number of path segments after the fixed prefix, for all
    inputs: two when the state is left out and three when it is not, plus
    one for every ['/'] in the parts that enter the URL. *)
Theorem format_url_segment_count country state city :
  exists segments,
    path_segments (_format_url country state city) = Some segments
    /\ length segments
       = if state_omitted state
         then (2 + count_char "/" country + count_char "/" city)%nat
         else (3 + count_char "/" country + count_char "/" state
               + count_char "/" city)%nat.
Proof.
  unfold path_segments. rewrite format_url_shape, strip_prefix_app.
  eexists. split; [reflexivity |].
  rewrite length_split.
  destruct (state_omitted state);
    rewrite ?count_char_app; simpl; rewrite ?count_char_app; simpl;
    rewrite !count_slash_clean; lia.
Qed.

End SegmentCount.
